(** * Web_Asn4: the Express application [app.js], its movie normalizer,
      its identifier filter, its routes and its error handler.

    The development follows the second (current) revision of [app.js]:
    the one whose movie schema declares [movie_id] as [Mixed] and is not
    strict, and which defines [movieIdFilter] and [pick]. *)

From Stdlib Require Import ZArith Lia Ascii String.
From stdpp Require Import base option list strings pretty gmap.

Local Open Scope string_scope.
Local Open Scope Z_scope.
Local Open Scope list_scope.

(** ** JavaScript values *)

(** The scalar values that travel in query strings, form and JSON bodies and
    that documents store.  A number is modelled by its integer value; arrays
    and nested objects are not modelled. *)
Inductive value : Type :=
| VUndefined
| VNull
| VBool (b : bool)
| VNum (z : Z)
| VStr (s : string).

#[global] Instance value_eq_dec : EqDecision value.
Proof. solve_decision. Defined.

#[global] Instance value_inhabited : Inhabited value := populate VUndefined.

(** A plain object: property names to values. *)
Abbreviation object := (gmap string value).

(** [obj[n]]: reading a property that is not there gives [undefined]. *)
Definition get (obj : object) (n : string) : value :=
  default VUndefined (obj !! n).

(** [v != null] (loose inequality): false for [null] and [undefined] only. *)
Definition notNull (v : value) : bool :=
  match v with
  | VUndefined | VNull => false
  | _ => true
  end.

(** Truthiness, as [if (v)], [!v] and [v ? a : b] use it. *)
Definition truthy (v : value) : bool :=
  match v with
  | VUndefined | VNull => false
  | VBool b => b
  | VNum z => negb (z =? 0)
  | VStr s => negb (String.eqb s "")
  end.

(** ** Documents *)

(** A stored document: the identifier the store assigned (an ObjectId, as
    its hexadecimal string), and the fields. *)
Record Doc : Type := mkDoc {
  _id : string;
  props : object
}.

(** ** The field normalizer of the home page *)

(** [names.find(n => obj[n] != null)] *)
Definition findName (obj : object) (names : list string) : option string :=
  List.find (fun n => notNull (get obj n)) names.

(** [pick = (obj, names, fb = '') =>
       names.find(n => obj[n] != null) ? obj[names.find(n => obj[n] != null)] : fb]

    The condition tests the name that [find] returns: [undefined] when no
    name qualifies, and a string otherwise, which is truthy unless empty. *)
Definition pick (obj : object) (names : list string) (fb : value) : value :=
  match findName obj names with
  | Some n => if truthy (VStr n) then get obj n else fb
  | None => fb
  end.

Definition titleNames : list string :=
  ["movie_title"; "title"; "Title"; "name"; "Name"; "MovieTitle"].

Definition idNames : list string :=
  ["movie_id"; "movieId"; "movieid"; "MovieID"; "id"; "Id"; "ID"].

Definition releasedNames : list string :=
  ["Released"; "released"; "release_year"; "releaseYear"; "year"; "Year";
   "ReleaseDate"; "release_date"].

(** The object the home page hands to the view for each document. *)
Record MovieView : Type := mkMovieView {
  view_id : string;
  movie_title : value;
  movie_id : value;
  Released : value
}.

(** The callback of [raw.map(d => ({ _id: ..., movie_title: ..., ... }))]. *)
Definition normalize (d : Doc) : MovieView :=
  {| view_id := _id d;
     movie_title := pick (props d) titleNames (VStr "(no title)");
     movie_id := pick (props d) idNames (VStr "");
     Released := pick (props d) releasedNames (VStr "") |}.

(** What the specification asks of one attribute: [v] is the value of the
    first name of [names] whose value in [obj] is neither [null] nor
    [undefined], and [fb] when there is no such name. *)
Definition firstPresent (obj : object) (names : list string) (fb v : value) : Prop :=
  (exists pre n post,
      names = pre ++ n :: post /\
      Forall (fun m => notNull (get obj m) = false) pre /\
      notNull (get obj n) = true /\
      v = get obj n)
  \/ (Forall (fun m => notNull (get obj m) = false) names /\ v = fb).

(** ** Numbers and the coercion [Number(x)] *)

(** The result of [Number(x)]: [NaN], or a number. *)
Inductive jsnum : Type :=
| NaN
| Num (z : Z).

(** ** Query filters *)

(** The filter objects the routes hand to the store. *)
#[warnings="-register-all"]
Inductive query : Type :=
| QAll                                  (* [{}] *)
| QField (path : string) (v : value)    (* [{ path: v }] *)
| QNumber (path : string) (n : jsnum)   (* [{ path: Number(x) }] *)
| QId (id : value)                      (* [{ _id: id }] *)
| QOr (fs : list query).               (* [{ $or: [...] }] *)

(** Equality of a stored field with the operand of a filter.  A stored field
    equals an operand of its own type and value; the operands [null] and
    [undefined] select the documents where the field is [null] or absent. *)
Definition fieldEq (stored : option value) (operand : value) : bool :=
  if notNull operand
  then bool_decide (stored = Some operand)
  else negb (notNull (default VUndefined stored)).

(** ** The document store *)

Inductive Model : Type := EmployeeModel | MovieModel.

(** The types of the schema paths. *)
Inductive SchemaType : Type := SString | SNumber | Mixed.

(** A path of a schema: its name, its type, and whether it is required. *)
Record SchemaPath : Type := schemaPath {
  path_name : string;
  path_type : SchemaType;
  required : bool
}.

(** [new Schema({ name: { type: String, required: true },
                  salary: { type: Number, required: true },
                  age: { type: Number, required: true } })] *)
Definition EmpSchema : list SchemaPath :=
  [schemaPath "name" SString true;
   schemaPath "salary" SNumber true;
   schemaPath "age" SNumber true].

(** [new Schema({ movie_id: { type: Schema.Types.Mixed, index: true },
                  movie_title: { type: String, index: true },
                  Released: { type: String } },
                { timestamps: true, strict: false })] *)
Definition MovieSchema : list SchemaPath :=
  [schemaPath "movie_id" Mixed false;
   schemaPath "movie_title" SString false;
   schemaPath "Released" SString false].

Definition schema (m : Model) : list SchemaPath :=
  match m with
  | EmployeeModel => EmpSchema
  | MovieModel => MovieSchema
  end.

(** A strict schema (the default) drops the fields it does not declare. *)
Definition strict (m : Model) : bool :=
  match m with
  | EmployeeModel => true
  | MovieModel => false
  end.

Definition pathType (m : Model) (p : string) : option SchemaType :=
  path_type <$> List.find (fun sp => String.eqb (path_name sp) p) (schema m).

(** The calls the application makes on a model, recorded as they happen. *)
Inductive StoreCall : Type :=
| CallFind (m : Model) (f : query) (limit : option nat)
| CallFindById (m : Model) (id : value)
| CallFindOne (m : Model) (f : query)
| CallCreate (m : Model) (fields : list (string * value))
| CallFindOneAndUpdate (m : Model) (f : query) (set : list (string * value))
| CallDeleteOne (m : Model) (f : query).

(** The two collections, each in the order in which the store goes through
    its documents, and the log of the calls made so far. *)
Record Store : Type := mkStore {
  employees : list Doc;
  movies : list Doc;
  calls : list StoreCall
}.

Definition collection (m : Model) (s : Store) : list Doc :=
  match m with
  | EmployeeModel => employees s
  | MovieModel => movies s
  end.

Definition setCollection (m : Model) (l : list Doc) (s : Store) : Store :=
  match m with
  | EmployeeModel => {| employees := l; movies := movies s; calls := calls s |}
  | MovieModel => {| employees := employees s; movies := l; calls := calls s |}
  end.

Definition logCall (c : StoreCall) (s : Store) : Store :=
  {| employees := employees s; movies := movies s; calls := calls s ++ [c] |}.

(** An object literal whose [undefined] properties are left out, as the
    store does when it saves or updates a document. *)
Definition assign (fields : list (string * value)) (o : object) : object :=
  fold_left (fun acc kv => if decide (kv.2 = VUndefined) then acc else <[kv.1 := kv.2]> acc)
            fields o.

(** [limit(n)] of a result list; no limit when [None]. *)
Definition limited (limit : option nat) (l : list Doc) : list Doc :=
  match limit with
  | Some n => firstn n l
  | None => l
  end.

(** ** Responses and errors *)

(** One entry of [errors.array()] of the request validator. *)
Record FieldError : Type := mkFieldError {
  param : string;
  msg : string;
  rejected : value
}.

(** The values of the properties of the object literals sent with
    [res.json]. *)
Inductive jsprop : Type :=
| PUndefined
| PBool (b : bool)
| PNumber (n : nat)
| PString (s : string)
| PErrors (l : list FieldError).

(** What a view receives, the layout aside. *)
Inductive Locals : Type :=
| IndexLocals (movies : list MovieView) (showDebug : bool) (sample : option Doc)
| MovieLocals (movie : option Doc) (showDebug : option bool)
| NoLocals.

Inductive Body : Type :=
| JsonDocs (l : list Doc)                   (* [res.json(list)] *)
| JsonDoc (d : Doc)                         (* [res.json(doc)] *)
| JsonObject (o : list (string * jsprop))   (* [res.json({ ... })], serialized *)
| Text (s : string)                         (* [res.send(string)] *)
| Render (view : string) (locals : Locals)  (* [res.render(view, locals)] *)
| Redirect (url : string).                  (* [res.redirect(url)] *)

Record Response : Type := mkResponse {
  status : nat;
  body : Body
}.

(** An error object: [message], [status] and [details] as the routes set
    them, and the [stack] every [Error] carries. *)
Record Err : Type := mkErr {
  err_message : string;
  err_status : option nat;
  err_details : option (list FieldError);
  err_stack : string
}.

(** The errors that the application does not create itself: a method called
    on [null], and a store call that fails in casting its arguments to the
    schema or in validating the document. *)
Inductive Failure : Type :=
| NullModel (method : string)
| StoreFailed (c : StoreCall).

(** [JSON.stringify] leaves out the properties whose value is [undefined]. *)
Definition stringify (o : list (string * jsprop)) : list (string * jsprop) :=
  List.filter (fun kv => match kv.2 with PUndefined => false | _ => true end) o.

(** ** Requests *)

Record Request : Type := mkRequest {
  method : string;
  originalUrl : string;
  params : object;
  query_ : object;
  body_ : object;
  validation : list FieldError   (* what the validation chains found *)
}.

Definition withBody (req : Request) (b : object) : Request :=
  {| method := method req; originalUrl := originalUrl req;
     params := params req; query_ := query_ req; body_ := b;
     validation := validation req |}.

Definition withValidation (req : Request) (es : list FieldError) : Request :=
  {| method := method req; originalUrl := originalUrl req;
     params := params req; query_ := query_ req; body_ := body_ req;
     validation := es |}.

(** ** The handler monad: the store and the response being built, with
       exceptions *)

Record State : Type := mkState {
  store : Store;
  res : Response;
  sent : bool
}.

Inductive Result (A : Type) : Type :=
| Ok (a : A)
| Threw (e : Err).
Arguments Ok {A} a.
Arguments Threw {A} e.

Definition M (A : Type) : Type := State -> Result A * State.

Definition ret {A} (a : A) : M A := fun st => (Ok a, st).

Definition bind {A B} (c : M A) (k : A -> M B) : M B :=
  fun st =>
    match c st with
    | (Ok a, st') => k a st'
    | (Threw e, st') => (Threw e, st')
    end.

Definition throw {A} (e : Err) : M A := fun st => (Threw e, st).

Notation "x <- c ;; k" := (bind c (fun x => k))
  (at level 100, c at next level, right associativity).
Notation "c ;;; k" := (bind c (fun _ => k))
  (at level 100, right associativity).

(** A fresh response has status 200 until [res.status] changes it. *)
Definition freshResponse : Response := {| status := 200%nat; body := Text "" |}.

Definition initial (s : Store) : State :=
  {| store := s; res := freshResponse; sent := false |}.

(** [res.status(code)] *)
Definition res_status (code : nat) : M unit :=
  fun st => (Ok tt, {| store := store st;
                       res := {| status := code; body := body (res st) |};
                       sent := sent st |}).

Definition res_end (b : Body) : M unit :=
  fun st => (Ok tt, {| store := store st;
                       res := {| status := status (res st); body := b |};
                       sent := true |}).

(** [res.json(...)], [res.send(...)], [res.render(...)]: the status stays
    as it is. *)
Definition res_json (b : Body) : M unit := res_end b.
Definition res_send (s : string) : M unit := res_end (Text s).
Definition res_render (view : string) (l : Locals) : M unit := res_end (Render view l).

(** [res.redirect(url)] answers 302. *)
Definition res_redirect (url : string) : M unit :=
  res_status 302 ;;; res_end (Redirect url).

Definition withStore (st : State) (s : Store) : State :=
  {| store := s; res := res st; sent := sent st |}.

(** ** Request validation (express-validator): strings *)

(** Strings hold the UTF-8 encoding of their text.  The white space of
    [\s]: the ASCII characters tab, line feed, vertical tab, form feed,
    carriage return and space; U+00A0; and, on three bytes, U+1680,
    U+2000 to U+200A, U+2028, U+2029, U+202F, U+205F, U+3000 and U+FEFF. *)
Definition isWhite (a : ascii) : bool :=
  let n := nat_of_ascii a in
  ((n =? 32) || (n =? 9) || (n =? 10) || (n =? 11) || (n =? 12) || (n =? 13))%nat.

Definition isWhite2 (a b : ascii) : bool :=
  ((nat_of_ascii a =? 194) && (nat_of_ascii b =? 160))%nat.

Definition isWhite3 (a b c : ascii) : bool :=
  let x := nat_of_ascii a in
  let y := nat_of_ascii b in
  let z := nat_of_ascii c in
  ((x =? 225) && (y =? 154) && (z =? 128)
   || (x =? 226) && (y =? 128)
      && ((128 <=? z) && (z <=? 138) || (z =? 168) || (z =? 169) || (z =? 175))
   || (x =? 226) && (y =? 129) && (z =? 159)
   || (x =? 227) && (y =? 128) && (z =? 128)
   || (x =? 239) && (y =? 187) && (z =? 191))%nat.

(** [s] without the white space it starts with; [w2] and [w3] recognize the
    characters of two and of three bytes. *)
Fixpoint strip (w2 : ascii -> ascii -> bool) (w3 : ascii -> ascii -> ascii -> bool)
    (s : string) : string :=
  match s with
  | EmptyString => EmptyString
  | String a s1 =>
      if isWhite a then strip w2 w3 s1
      else match s1 with
           | EmptyString => s
           | String b s2 =>
               if w2 a b then strip w2 w3 s2
               else match s2 with
                    | EmptyString => s
                    | String c s3 => if w3 a b c then strip w2 w3 s3 else s
                    end
           end
  end.

Definition ltrim (s : string) : string := strip isWhite2 isWhite3 s.

(** At the end of the string the bytes of a character are met last byte
    first. *)
Definition rtrim (s : string) : string :=
  String.rev (strip (fun b a => isWhite2 a b) (fun c b a => isWhite3 a b c) (String.rev s)).

(** The validator's [trim]: white space removed at both ends. *)
Definition trim (s : string) : string := rtrim (ltrim s).

Definition isDigit (a : ascii) : bool :=
  let n := nat_of_ascii a in ((48 <=? n) && (n <=? 57))%nat.

Fixpoint allDigits (s : string) : bool :=
  match s with
  | String a s' => isDigit a && allDigits s'
  | EmptyString => true
  end.

(** [digits s] holds when [s] matches [[0-9]+]. *)
Definition digits (s : string) : bool :=
  negb (String.eqb s "") && allDigits s.

(** [afterDigits s]: what follows the longest prefix of digits of [s]. *)
Fixpoint afterDigits (s : string) : string :=
  match s with
  | String a s' => if isDigit a then afterDigits s' else s
  | EmptyString => EmptyString
  end.

(** The validator's [isNumeric]: [^[+-]?([0-9]*[.])?[0-9]+$]. *)
Definition numericString (s : string) : bool :=
  let unsigned :=
    match s with
    | String "+" s' | String "-" s' => s'
    | _ => s
    end in
  digits unsigned ||
  match afterDigits unsigned with
  | String "." frac => digits frac
  | _ => false
  end.

(** The steps of a chain [body(field)...]: a sanitizer, or a validator with
    its message. *)
Inductive Step : Type :=
| Trim
| NotEmpty (message : string)
| IsNumeric (message : string).

Definition notEmpty : Step := NotEmpty "Invalid value".
Definition isNumeric : Step := IsNumeric "Invalid value".

Record Chain : Type := body_chain {
  chain_field : string;
  chain_steps : list Step
}.

(** [validationResult(req)], as the list [errors.array()]. *)
Definition validationResult (req : Request) : list FieldError := validation req.

(** ** The application *)

(** [process.env], as far as the application reads it. *)
Record Env : Type := mkEnv {
  MONGODB_URI_MOVIES : value;
  NODE_ENV : value
}.

(** The endpoints of the application. *)
Inductive Route : Type :=
| GET_api_employees
| GET_api_employees_id
| POST_api_employees
| PUT_api_employees_id
| DELETE_api_employees_id
| GET_api_movies
| GET_api_movies_find
| POST_api_movies
| PUT_api_movies
| DELETE_api_movies
| GET_home
| GET_ui_movie_show
| GET_ui_movie_new
| POST_ui_movie_new
| GET_ui_movie_update
| POST_ui_movie_update
| GET_ui_movie_delete
| POST_ui_movie_delete
| GET_healthz
| Unknown.

(** ** Reading responses and stores *)

(** The documents a response carries. *)
Definition records (b : Body) : list Doc :=
  match b with
  | JsonDocs l => l
  | JsonDoc d => [d]
  | _ => []
  end.

(** The property names of a serialized object. *)
Definition keys (o : list (string * jsprop)) : list string := map fst o.

(** A body without the [stack] of its object. *)
Definition withoutStack (b : Body) : Body :=
  match b with
  | JsonObject o => JsonObject (List.filter (fun kv => negb (String.eqb kv.1 "stack")) o)
  | _ => b
  end.

(** ** Instances for the examples *)

Fixpoint decimalValue (acc : Z) (s : string) : jsnum :=
  match s with
  | EmptyString => Num acc
  | String a s' =>
      if isDigit a
      then decimalValue (10 * acc + Z.of_nat (nat_of_ascii a - 48)) s'
      else NaN
  end.

(** [Number] on the strings of decimal digits, and [NaN] elsewhere: the part
    of the conversion that the examples use. *)
Definition decimalToNumber (s : string) : jsnum := decimalValue 0 s.

(** [s] without the zeros it starts with. *)
Fixpoint dropZeros (s : string) : string :=
  match s with
  | String "0" s' => dropZeros s'
  | _ => s
  end.

(** A number in exponent form: its first digit, the digits that follow up
    to the last one that is not zero, and the power of ten. *)
Definition exponentForm (z : Z) : string :=
  match pretty (Z.abs z) with
  | EmptyString => EmptyString
  | String d rest =>
      let frac := String.rev (dropZeros (String.rev rest)) in
      ((if (z <? 0)%Z then "-" else "")
       ++ String d (if String.eqb frac "" then "" else "." ++ frac)
       ++ "e+" ++ pretty (String.length rest))%string
  end.

(** [String(n)] on the integers that the examples use: in plain decimal
    below 10^21, in exponent form from there on. *)
Definition numberText (z : Z) : string :=
  if Z.abs z <? 10 ^ 21 then pretty z else exponentForm z.

Definition isHex (a : ascii) : bool :=
  let n := nat_of_ascii a in
  ((48 <=? n) && (n <=? 57) || (65 <=? n) && (n <=? 70) || (97 <=? n) && (n <=? 102))%nat.

Definition lowerCase (a : ascii) : ascii :=
  let n := nat_of_ascii a in
  if ((65 <=? n) && (n <=? 90))%nat then ascii_of_nat (n + 32) else a.

Fixpoint allHex (s : string) : bool :=
  match s with
  | String a s' => isHex a && allHex s'
  | EmptyString => true
  end.

Fixpoint lower (s : string) : string :=
  match s with
  | String a s' => String (lowerCase a) (lower s')
  | EmptyString => EmptyString
  end.

(** The cast to ObjectId of the strings of 24 hexadecimal digits, whatever
    the case of their letters, and its failure on the other strings that
    the examples use. *)
Definition hexObjectId (v : value) : option string :=
  match v with
  | VStr s => if (String.length s =? 24)%nat && allHex s then Some (lower s) else None
  | _ => None
  end.

Fixpoint zeros (n : nat) : string :=
  match n with
  | O => ""
  | S n' => String "0" (zeros n')
  end.

(** Identifiers numbered by the documents stored so far, on 24 digits. *)
Definition countingObjectId (s : Store) : string :=
  let n := pretty (length (employees s) + length (movies s))%nat in
  zeros (24 - String.length n) ++ n.

(** A stack that names the message of the error and the line of [app.js]
    at which it arose. *)
Definition lineStack (line : nat) (message : string) : string :=
  (message ++ " at app.js:" ++ pretty line)%string.

(** Messages for the errors of the runtime and of the store. *)
Definition failureText (f : Failure) : string :=
  match f with
  | NullModel method => ("Cannot read properties of null (reading '" ++ method ++ "')")%string
  | StoreFailed _ => "Cast failed"
  end.

Definition configured : Env :=
  {| MONGODB_URI_MOVIES := VStr "mongodb://localhost:27017/movies";
     NODE_ENV := VUndefined |}.

Definition unconfigured : Env :=
  {| MONGODB_URI_MOVIES := VUndefined; NODE_ENV := VUndefined |}.

Definition production : Env :=
  {| MONGODB_URI_MOVIES := VUndefined; NODE_ENV := VStr "production" |}.

Definition live : Env :=
  {| MONGODB_URI_MOVIES := VStr "mongodb://localhost:27017/movies";
     NODE_ENV := VStr "production" |}.

Definition emptyStore : Store := {| employees := []; movies := []; calls := [] |}.

Definition request (m url : string) (ps q b : object) : Request :=
  {| method := m; originalUrl := url; params := ps; query_ := q; body_ := b;
     validation := [] |}.

(** Two legacy movie records that hold the identifier 42 as a number and as
    a string. *)
Definition legacyNumber : Doc :=
  {| _id := "64b7f0a2c3d4e5f601234501";
     props := {["movie_id" := VNum 42; "movie_title" := VStr "Heat"]} |}.

Definition legacyString : Doc :=
  {| _id := "64b7f0a2c3d4e5f601234502";
     props := {["movie_id" := VStr "42"; "title" := VStr "Ronin"]} |}.

(** A record that names its title and its year as older tools did. *)
Definition alien : Doc :=
  {| _id := "64b7f0a2c3d4e5f601234503";
     props := {["title" := VStr "Alien"; "year" := VNum 1979]} |}.

Definition ann : Doc :=
  {| _id := "64b7f0a2c3d4e5f6012345e1";
     props := {["name" := VStr "Ann"; "salary" := VNum 50000; "age" := VNum 30]} |}.

Definition legacyStore : Store :=
  {| employees := [ann];
     movies := [legacyNumber; legacyString];
     calls := [] |}.

(** U+00A0, the no-break space. *)
Definition nbsp : string :=
  String (ascii_of_nat 194) (String (ascii_of_nat 160) EmptyString).

(** Requests for the examples. *)
Definition deleteSeven : Request :=
  request "DELETE" "/api/movies?movie_id=7" ∅ {["movie_id" := VStr "7"]} ∅.

Definition deleteFortyTwo : Request :=
  request "DELETE" "/api/movies?movie_id=42" ∅ {["movie_id" := VStr "42"]} ∅.

Definition deleteAbc : Request :=
  request "DELETE" "/api/employees/abc" {["id" := VStr "abc"]} ∅ ∅.

Definition deleteAnn : Request :=
  request "DELETE" "/api/employees/64B7F0A2C3D4E5F6012345E1"
    {["id" := VStr "64B7F0A2C3D4E5F6012345E1"]} ∅ ∅.

Definition deleteNobody : Request :=
  request "DELETE" "/api/employees/64b7f0a2c3d4e5f6012345e9"
    {["id" := VStr "64b7f0a2c3d4e5f6012345e9"]} ∅ ∅.

Definition showAbc : Request :=
  request "GET" "/ui/movie/show?id=abc" ∅ {["id" := VStr "abc"]} ∅.

Definition retitle : Request :=
  request "PUT" "/api/movies" ∅ ∅
    {["movie_id" := VStr "42"; "movie_title" := VStr "Heat (1995)"; "Released" := VNum 1995]}.

Definition hireBob : Request :=
  request "POST" "/api/employees" ∅ ∅
    {["name" := VStr " Bob "; "salary" := VNum 50000; "age" := VStr "30"]}.

Definition addRan : Request :=
  request "POST" "/api/movies" ∅ ∅
    {["movie_id" := VStr "7"; "movie_title" := VStr "Ran"; "Released" := VNum 1985]}.


(** ** The first revision of the home page

    [app.js] keeps the first revision of the application before the current
    one.  Its home page normalizes a record with chains of [??]. *)

(** [a ?? b] *)
Definition coalesce (a b : value) : value :=
  if notNull a then a else b.

(** The callback of [raw.map(d => ...)] of the first revision:
    [movie_title: d.movie_title ?? d.title ?? d.name ?? d.MovieTitle ?? ''],
    [movie_id: d.movie_id ?? d.movieId ?? d.movieid ?? d.MovieID ?? ''],
    [Released: d.Released ?? d.released ?? d.release_year ?? d.releaseYear
               ?? d.year ?? '']. *)
Definition normalize_v1 (d : Doc) : MovieView :=
  let o := props d in
  {| view_id := _id d;
     movie_title :=
       coalesce (coalesce (coalesce (coalesce (get o "movie_title") (get o "title"))
                                    (get o "name"))
                          (get o "MovieTitle"))
                (VStr "");
     movie_id :=
       coalesce (coalesce (coalesce (coalesce (get o "movie_id") (get o "movieId"))
                                    (get o "movieid"))
                          (get o "MovieID"))
                (VStr "");
     Released :=
       coalesce (coalesce (coalesce (coalesce (coalesce (get o "Released") (get o "released"))
                                              (get o "release_year"))
                                    (get o "releaseYear"))
                          (get o "year"))
                (VStr "") |}.


Section App.

(** What the application takes from its environment:
    - the conversion of a string to a number that [Number(x)] applies
      (ECMAScript's StringToNumber), and the text of a number that
      [String(x)] gives (Number::toString);
    - the cast of a value to an ObjectId by the store library, which gives
      the identifier in the form in which documents hold it, and fails on a
      value that is not a well-formed identifier;
    - the generator of document identifiers of the store driver;
    - the stack of an error that arises at a line of [app.js] with a
      message, and the message of an error that comes from the runtime or
      from the store library;
    - the environment of the process. *)
Variable StringToNumber : string -> jsnum.
Variable NumberToString : Z -> string.
Variable castObjectId : value -> option string.
Variable ObjectId : Store -> string.
Variable stackTrace : nat -> string -> string.
Variable failure : Failure -> string.
Variable process_env : Env.

(** ** Conversions *)

(** [Number(v)] *)
Definition Number (v : value) : jsnum :=
  match v with
  | VUndefined => NaN
  | VNull => Num 0
  | VBool true => Num 1
  | VBool false => Num 0
  | VNum z => Num z
  | VStr s => StringToNumber s
  end.

(** [String(v)], as ['text' + v] applies it. *)
Definition jsString (v : value) : string :=
  match v with
  | VUndefined => "undefined"
  | VNull => "null"
  | VBool true => "true"
  | VBool false => "false"
  | VNum z => NumberToString z
  | VStr s => s
  end.

(** The validator's [toString]: the empty string for [null] and [undefined],
    [String(v)] otherwise. *)
Definition toString (v : value) : string :=
  match v with
  | VUndefined | VNull => ""
  | _ => jsString v
  end.

(** ** Casting to the schema *)

(** The cast to a [String] path: [null] and [undefined] stay, the other
    values give their text. *)
Definition castString (v : value) : value :=
  match v with
  | VUndefined | VNull => v
  | _ => VStr (jsString v)
  end.

(** The cast to a [Number] path: [null] and [undefined] stay, the empty
    string gives [null], a string or a boolean gives [Number(v)], and the
    cast fails when that is [NaN]. *)
Definition castNumber (v : value) : option value :=
  match v with
  | VUndefined | VNull | VNum _ => Some v
  | VStr "" => Some VNull
  | _ => match Number v with
         | NaN => None
         | Num z => Some (VNum z)
         end
  end.

Definition castValue (t : SchemaType) (v : value) : option value :=
  match t with
  | SString => Some (castString v)
  | SNumber => castNumber v
  | Mixed => Some v
  end.

(** The fields of a create or of a [$set], cast to the types of the
    schema of the model; a field that the schema does not declare is kept
    as it is, or dropped when the schema is strict.  [None] when a cast
    fails. *)
Fixpoint castFields (m : Model) (fields : list (string * value))
  : option (list (string * value)) :=
  match fields with
  | [] => Some []
  | (k, v) :: rest =>
      match pathType m k with
      | Some t =>
          match castValue t v, castFields m rest with
          | Some v', Some rest' => Some ((k, v') :: rest')
          | _, _ => None
          end
      | None =>
          if strict m then castFields m rest
          else match castFields m rest with
               | Some rest' => Some ((k, v) :: rest')
               | None => None
               end
      end
  end.

(** The [required] validator: the path holds a value, and not the empty
    string when it is a [String] path. *)
Definition holds (t : SchemaType) (v : value) : bool :=
  match t, v with
  | SString, VStr s => negb (String.eqb s "")
  | _, _ => notNull v
  end.

Definition requiredOk (m : Model) (o : object) : bool :=
  forallb (fun sp => negb (required sp) || holds (path_type sp) (get o (path_name sp)))
          (schema m).

(** The fields of the document that [m.create(fields)] saves: the fields
    cast to the schema, when every cast succeeds and the required paths
    hold a value. *)
Definition newDocument (m : Model) (fields : list (string * value)) : option object :=
  match castFields m fields with
  | Some fields' =>
      let o := assign fields' ∅ in
      if requiredOk m o then Some o else None
  | None => None
  end.

(** The text of the result of [Number(x)]. *)
Definition jsnumString (n : jsnum) : string :=
  match n with
  | NaN => "NaN"
  | Num z => NumberToString z
  end.

(** A filter with its operands cast to the types of the schema of the
    model.  [None] when a cast fails: an [_id] that is not a well-formed
    identifier, a [Number] path compared with what is not a number. *)
Fixpoint castQuery (m : Model) (f : query) : option query :=
  match f with
  | QAll => Some QAll
  | QField p v =>
      match pathType m p with
      | Some t => QField p <$> castValue t v
      | None => Some f
      end
  | QNumber p n =>
      match pathType m p, n with
      | Some SString, _ => Some (QField p (VStr (jsnumString n)))
      | Some SNumber, NaN => None
      | _, _ => Some f
      end
  | QId id =>
      match castObjectId id with
      | Some _ => Some f
      | None => None
      end
  | QOr fs =>
      QOr <$> (fix castAll (l : list query) : option (list query) :=
                 match l with
                 | [] => Some []
                 | g :: l' =>
                     match castQuery m g, castAll l' with
                     | Some g', Some l'' => Some (g' :: l'')
                     | _, _ => None
                     end
                 end) fs
  end.

(** ** Matching *)

(** Does document [d] satisfy the (cast) filter [f]?  Stored numbers are
    numbers, so the operand [NaN] equals none of them; the [_id] of the
    document is compared with the identifier that the operand casts to. *)
Fixpoint matches (f : query) (d : Doc) : bool :=
  match f with
  | QAll => true
  | QField p v => fieldEq (props d !! p) v
  | QNumber p NaN => false
  | QNumber p (Num z) => fieldEq (props d !! p) (VNum z)
  | QId id =>
      match castObjectId id with
      | Some oid => String.eqb (_id d) oid
      | None => false
      end
  | QOr fs => existsb (fun g => matches g d) fs
  end.

(** The first document of [l] that satisfies [f] replaced by [g] of it. *)
Fixpoint updateFirst (f : query) (g : Doc -> Doc) (l : list Doc) : list Doc :=
  match l with
  | [] => []
  | d :: l' => if matches f d then g d :: l' else d :: updateFirst f g l'
  end.

(** [l] without its first document that satisfies [f]. *)
Fixpoint removeFirst (f : query) (l : list Doc) : list Doc :=
  match l with
  | [] => []
  | d :: l' => if matches f d then l' else d :: removeFirst f l'
  end.

(** [l'] is [l] with nothing changed but, at most, its first document that
    satisfies [f], which is replaced (under the same identifier) or
    removed. *)
Inductive firstMatchOnly (f : query) : list Doc -> list Doc -> Prop :=
| fm_same l :
    firstMatchOnly f l l
| fm_replaced pre d d' post :
    Forall (fun x => matches f x = false) pre ->
    matches f d = true ->
    _id d' = _id d ->
    firstMatchOnly f (pre ++ d :: post) (pre ++ d' :: post)
| fm_removed pre d post :
    Forall (fun x => matches f x = false) pre ->
    matches f d = true ->
    firstMatchOnly f (pre ++ d :: post) (pre ++ post).

(** ** Errors *)

(** [new Error(message)], at a line of [app.js]. *)
Definition newError (line : nat) (message : string) : Err :=
  {| err_message := message;
     err_status := None;
     err_details := None;
     err_stack := stackTrace line message |}.

(** [const err = new Error(message); err.status = code;] *)
Definition httpError (line : nat) (message : string) (code : nat) : Err :=
  let err := newError line message in
  {| err_message := err_message err;
     err_status := Some code;
     err_details := err_details err;
     err_stack := err_stack err |}.

(** An error of the runtime or of the store library, from a call at a
    line of [app.js]: it has a message and a stack, and neither [status]
    nor [details]. *)
Definition runtimeError (line : nat) (f : Failure) : Err :=
  newError line (failure f).

(** ** The store adapter

    The model methods the routes call.  Each call is logged and acts on the
    collection of its model; a method called on [null] (the movie model when
    the movies store is not configured) throws, and so does a call whose
    filter or fields cannot be cast to the schema, before it reaches the
    collection.  The store is taken as reliable: a call that reaches it
    completes.  Documents are returned as they are stored; the timestamps
    and the version key that the library adds to them are outside the
    model. *)

Definition onModel {A} (line : nat) (method : string) (m : option Model)
    (c : Model -> StoreCall) (k : Model -> Store -> option (A * Store)) : M A :=
  fun st =>
    match m with
    | None => (Threw (runtimeError line (NullModel method)), st)
    | Some m' =>
        let s := logCall (c m') (store st) in
        match k m' s with
        | Some (a, s') => (Ok a, withStore st s')
        | None => (Threw (runtimeError line (StoreFailed (c m'))), withStore st s)
        end
    end.

(** [m.find(f)], [m.find(f).limit(n)] *)
Definition find (line : nat) (m : option Model) (f : query) (limit : option nat)
  : M (list Doc) :=
  onModel line "find" m (fun m' => CallFind m' f limit)
    (fun m' s =>
       match castQuery m' f with
       | Some f' => Some (limited limit (List.filter (matches f') (collection m' s)), s)
       | None => None
       end).

(** [m.findOne(f)]: the first document, in the store's order, that
    satisfies [f], or [null]. *)
Definition findOne (line : nat) (m : option Model) (f : query) : M (option Doc) :=
  onModel line "findOne" m (fun m' => CallFindOne m' f)
    (fun m' s =>
       match castQuery m' f with
       | Some f' => Some (List.find (matches f') (collection m' s), s)
       | None => None
       end).

(** [m.findById(id)], which is [findOne({ _id: id })]. *)
Definition findById (line : nat) (m : option Model) (id : value) : M (option Doc) :=
  onModel line "findById" m (fun m' => CallFindById m' id)
    (fun m' s =>
       match castQuery m' (QId id) with
       | Some f' => Some (List.find (matches f') (collection m' s), s)
       | None => None
       end).

(** [m.findOneAndUpdate(f, { $set: set }, { new: true })]: the first
    document that satisfies [f] gets the fields of [set], cast to the
    schema; the updated document is returned, or [null] when none
    satisfies it. *)
Definition findOneAndUpdate (line : nat) (m : option Model) (f : query)
    (set : list (string * value)) : M (option Doc) :=
  onModel line "findOneAndUpdate" m (fun m' => CallFindOneAndUpdate m' f set)
    (fun m' s =>
       match castQuery m' f, castFields m' set with
       | Some f', Some set' =>
           let upd d := {| _id := _id d; props := assign set' (props d) |} in
           Some (upd <$> List.find (matches f') (collection m' s),
                 setCollection m' (updateFirst f' upd (collection m' s)) s)
       | _, _ => None
       end).

(** [m.deleteOne(f)]: removes the first document that satisfies [f]; the
    result is [deletedCount]. *)
Definition deleteOne (line : nat) (m : option Model) (f : query) : M nat :=
  onModel line "deleteOne" m (fun m' => CallDeleteOne m' f)
    (fun m' s =>
       match castQuery m' f with
       | Some f' =>
           Some ((if existsb (matches f') (collection m' s) then 1 else 0)%nat,
                 setCollection m' (removeFirst f' (collection m' s)) s)
       | None => None
       end).

(** [m.create(fields)]: a new document, with the identifier that the
    driver gives it and the fields cast to the schema, added after the
    others; the result is the document.  The call fails when a cast fails
    or a required path is missing. *)
Definition create (line : nat) (m : option Model) (fields : list (string * value))
  : M Doc :=
  onModel line "create" m (fun m' => CallCreate m' fields)
    (fun m' s =>
       match newDocument m' fields with
       | Some o =>
           let d := {| _id := ObjectId s; props := o |} in
           Some (d, setCollection m' (collection m' s ++ [d]) s)
       | None => None
       end).

(** ** Request validation (express-validator): chains *)

(** Running the steps on the value of the field: the value it ends with and
    the errors of the validators that failed. *)
Fixpoint runSteps (field : string) (steps : list Step) (v : value)
  : value * list FieldError :=
  match steps with
  | [] => (v, [])
  | Trim :: k => runSteps field k (VStr (trim (toString v)))
  | NotEmpty m :: k =>
      let '(v', es) := runSteps field k v in
      (v', if String.eqb (toString v) "" then mkFieldError field m v :: es else es)
  | IsNumeric m :: k =>
      let '(v', es) := runSteps field k v in
      (v', if numericString (toString v) then es else mkFieldError field m v :: es)
  end.

(** A chain as middleware: a sanitized value is written back to the body,
    the errors are added to those of the request. *)
Definition runChain (c : Chain) (req : Request) : Request :=
  let v := get (body_ req) (chain_field c) in
  let '(v', es) := runSteps (chain_field c) (chain_steps c) v in
  let b := if decide (v' = v) then body_ req else <[chain_field c := v']> (body_ req) in
  withValidation (withBody req b) (validation req ++ es).

Definition runChains (cs : list Chain) (req : Request) : Request :=
  fold_left (fun r c => runChain c r) cs req.

(** ** The models and the guard *)

Definition MOV_URI : value := MONGODB_URI_MOVIES process_env.

(** [const Employee = employeesConn.model(...)] *)
Definition Employee : option Model := Some EmployeeModel.

(** [let Movie = null; if (moviesConn) { ... Movie = moviesConn.model(...) }],
    where [moviesConn] is set when [MOV_URI] is truthy. *)
Definition Movie : option Model :=
  if truthy MOV_URI then Some MovieModel else None.

Definition ensureMovieConn : M bool :=
  match Movie with
  | None =>
      res_status 503 ;;;
      res_json (JsonObject (stringify
        [("error", PBool true);
         ("status", PNumber 503);
         ("message", PString "Movies DB not configured. Set MONGODB_URI_MOVIES in your .env.")])) ;;;
      ret true
  | Some _ => ret false
  end.

(** [movieIdFilter = (movie_id) =>
      ({ $or: [{ movie_id: Number(movie_id) }, { movie_id: movie_id }] })] *)
Definition movieIdFilter (movie_id : value) : query :=
  QOr [QNumber "movie_id" (Number movie_id); QField "movie_id" movie_id].

(** [const err = new Error('Not found'); err.status = 404;] *)
Definition notFound (line : nat) : Err := httpError line "Not found" 404.

(** *** Employee routes *)

Definition getEmployees (req : Request) : M unit :=
  list <- find 435 Employee QAll None ;;
  res_json (JsonDocs list).

Definition getEmployee (req : Request) : M unit :=
  doc <- findById 441 Employee (get (params req) "id") ;;
  match doc with
  | None => throw (notFound 442)
  | Some d => res_json (JsonDoc d)
  end.

(** [const err = new Error('Validation failed'); err.status = 400;
     err.details = errors.array();] *)
Definition validationFailed (line : nat) (errors : list FieldError) : Err :=
  let err := httpError line "Validation failed" 400 in
  {| err_message := err_message err; err_status := err_status err;
     err_details := Some errors; err_stack := err_stack err |}.

(** [[body('name').trim().notEmpty(), body('salary').isNumeric(),
     body('age').isNumeric()]] *)
Definition employeeChains : list Chain :=
  [body_chain "name" [Trim; notEmpty];
   body_chain "salary" [isNumeric];
   body_chain "age" [isNumeric]].

Definition postEmployees (req0 : Request) : M unit :=
  let req := runChains employeeChains req0 in
  let errors := validationResult req in
  if negb (bool_decide (errors = [])) then throw (validationFailed 453 errors)
  else
    create 455 Employee [("name", get (body_ req) "name");
                         ("salary", get (body_ req) "salary");
                         ("age", get (body_ req) "age")] ;;;
    all <- find 460 Employee QAll None ;;
    res_json (JsonDocs all).

(** [m.findByIdAndUpdate(id, update, { new: true })], which is
    [findOneAndUpdate({ _id: id }, { $set: update }, { new: true })]. *)
Definition findByIdAndUpdate (line : nat) (m : option Model) (id : value)
    (set : list (string * value)) : M (option Doc) :=
  findOneAndUpdate line m (QId id) set.

Definition putEmployee (req : Request) : M unit :=
  updated <- findByIdAndUpdate 467 Employee (get (params req) "id")
               [("name", get (body_ req) "name");
                ("salary", get (body_ req) "salary");
                ("age", get (body_ req) "age")] ;;
  match updated with
  | None => throw (notFound 472)
  | Some d =>
      res_send ("Successfully! Employee updated - " ++ jsString (get (props d) "name"))
  end.

Definition deleteEmployee (req : Request) : M unit :=
  r <- deleteOne 478 Employee (QId (get (params req) "id")) ;;
  if (r =? 0)%nat then throw (notFound 479)
  else res_send "Successfully! Employee has been Deleted.".

(** *** Movie REST routes *)

Definition getMovies (req : Request) : M unit :=
  unavailable <- ensureMovieConn ;;
  if unavailable then ret tt else
  list <- find 487 Movie QAll (Some 200%nat) ;;
  res_json (JsonDocs list).

Definition findMovie (req : Request) : M unit :=
  unavailable <- ensureMovieConn ;;
  if unavailable then ret tt else
  let id := get (query_ req) "id" in
  let movie_id := get (query_ req) "movie_id" in
  let title := get (query_ req) "title" in
  if truthy id then
    doc <- findById 497 Movie id ;;
    match doc with None => throw (notFound 498) | Some d => res_json (JsonDoc d) end
  else if truthy movie_id then
    doc <- findOne 502 Movie (movieIdFilter movie_id) ;;
    match doc with None => throw (notFound 503) | Some d => res_json (JsonDoc d) end
  else if truthy title then
    doc <- findOne 508 Movie (QOr [QField "movie_title" title; QField "title" title]) ;;
    match doc with None => throw (notFound 509) | Some d => res_json (JsonDoc d) end
  else throw (httpError 512 "Provide id or movie_id or title" 400).

(** [[body('movie_title').trim().notEmpty().withMessage('movie_title is required')]] *)
Definition movieChains : list Chain :=
  [body_chain "movie_title" [Trim; NotEmpty "movie_title is required"]].

Definition postMovies (req0 : Request) : M unit :=
  let req := runChains movieChains req0 in
  unavailable <- ensureMovieConn ;;
  if unavailable then ret tt else
  let errors := validationResult req in
  if negb (bool_decide (errors = [])) then throw (validationFailed 523 errors)
  else
    created <- create 525 Movie [("movie_id", get (body_ req) "movie_id");
                                 ("movie_title", get (body_ req) "movie_title");
                                 ("Released", get (body_ req) "Released")] ;;
    res_status 201 ;;;
    res_json (JsonDoc created).

(** [const filter = id ? { _id: id } : movieIdFilter(movie_id);] *)
Definition targetFilter (id movie_id : value) : query :=
  if truthy id then QId id else movieIdFilter movie_id.

(** [const err = new Error('Provide id or movie_id'); err.status = 400;] *)
Definition missingTarget (line : nat) : Err := httpError line "Provide id or movie_id" 400.

Definition putMovies (req : Request) : M unit :=
  unavailable <- ensureMovieConn ;;
  if unavailable then ret tt else
  let id := get (body_ req) "id" in
  let movie_id := get (body_ req) "movie_id" in
  let movie_title := get (body_ req) "movie_title" in
  let Released := get (body_ req) "Released" in
  if negb (truthy id) && negb (truthy movie_id) then throw (missingTarget 538)
  else
    let filter := targetFilter id movie_id in
    updated <- findOneAndUpdate 541 Movie filter
                 [("movie_title", movie_title); ("Released", Released)] ;;
    match updated with
    | None => throw (notFound 546)
    | Some d => res_json (JsonDoc d)
    end.

Definition deleteMovies (req : Request) : M unit :=
  unavailable <- ensureMovieConn ;;
  if unavailable then ret tt else
  let id := get (query_ req) "id" in
  let movie_id := get (query_ req) "movie_id" in
  if negb (truthy id) && negb (truthy movie_id) then throw (missingTarget 554)
  else
    let filter := targetFilter id movie_id in
    r <- deleteOne 557 Movie filter ;;
    if (r =? 0)%nat then throw (notFound 558)
    else res_json (JsonObject (stringify [("ok", PBool true)])).

(** *** UI routes *)

(** [req.query.debug === '1'] *)
Definition debugMode (req : Request) : bool :=
  bool_decide (get (query_ req) "debug" = VStr "1").

Definition home (req : Request) : M unit :=
  unavailable <- ensureMovieConn ;;
  if unavailable then ret tt else
  raw <- find 568 Movie QAll (Some 50%nat) ;;
  let movies := map normalize raw in
  let showDebug := debugMode req in
  res_render "index"
    (IndexLocals movies showDebug (if showDebug then head raw else None)).

Definition showMovie (req : Request) : M unit :=
  unavailable <- ensureMovieConn ;;
  if unavailable then ret tt else
  let id := get (query_ req) "id" in
  let movie_id := get (query_ req) "movie_id" in
  movie <- (if truthy id then findById 591 Movie id
            else if truthy movie_id then findOne 592 Movie (movieIdFilter movie_id)
            else ret None) ;;
  let showDebug := debugMode req in
  res_render "movie-view" (MovieLocals movie (Some showDebug)).

(** [res.render('movie-form', { layout: 'main' })] *)
Definition newMovieForm (req : Request) : M unit :=
  res_render "movie-form" NoLocals.

Definition newMovie (req : Request) : M unit :=
  unavailable <- ensureMovieConn ;;
  if unavailable then ret tt else
  create 605 Movie [("movie_id", get (body_ req) "movie_id");
                    ("movie_title", get (body_ req) "movie_title");
                    ("Released", get (body_ req) "Released")] ;;;
  res_redirect "/".

(** [res.render('movie-update', { layout: 'main' })] *)
Definition updateMovieForm (req : Request) : M unit :=
  res_render "movie-update" NoLocals.

Definition updateMovie (req : Request) : M unit :=
  unavailable <- ensureMovieConn ;;
  if unavailable then ret tt else
  let id := get (body_ req) "id" in
  let movie_id := get (body_ req) "movie_id" in
  let movie_title := get (body_ req) "movie_title" in
  let Released := get (body_ req) "Released" in
  if negb (truthy id) && negb (truthy movie_id) then throw (missingTarget 622)
  else
    let filter := targetFilter id movie_id in
    updated <- findOneAndUpdate 625 Movie filter
                 [("movie_title", movie_title); ("Released", Released)] ;;
    match updated with
    | None => throw (notFound 630)
    | Some d => res_render "movie-view" (MovieLocals (Some d) None)
    end.

(** [res.render('movie-delete', { layout: 'main' })] *)
Definition deleteMovieForm (req : Request) : M unit :=
  res_render "movie-delete" NoLocals.

Definition deleteMovie (req : Request) : M unit :=
  unavailable <- ensureMovieConn ;;
  if unavailable then ret tt else
  let id := get (body_ req) "id" in
  let movie_id := get (body_ req) "movie_id" in
  if negb (truthy id) && negb (truthy movie_id) then throw (missingTarget 645)
  else
    let filter := targetFilter id movie_id in
    r <- deleteOne 647 Movie filter ;;
    if (r =? 0)%nat then throw (notFound 648)
    else res_redirect "/".

(** *** Health check, unknown routes, errors *)

Definition healthz (req : Request) : M unit :=
  res_json (JsonObject (stringify [("ok", PBool true)])).

(** The middleware after the routes: [next(err)] with a 404 error. *)
Definition routeNotFound (req : Request) : M unit :=
  throw (httpError 659 ("Route not found: " ++ method req ++ " " ++ originalUrl req) 404).

(** [process.env.NODE_ENV !== 'production'] *)
Definition isDev : bool :=
  negb (bool_decide (NODE_ENV process_env = VStr "production")).

(** [err.status || 500] *)
Definition statusOf (err : Err) : nat :=
  match err_status err with
  | Some (S n) => S n
  | _ => 500%nat
  end.

(** [err.message || 'Internal Server Error'] *)
Definition messageOf (err : Err) : string :=
  if String.eqb (err_message err) "" then "Internal Server Error"
  else err_message err.

(** The centralized error handler. *)
Definition errorHandler (err : Err) : M unit :=
  let status := statusOf err in
  res_status status ;;;
  res_json (JsonObject (stringify
    [("error", PBool true);
     ("status", PNumber status);
     ("message", PString (messageOf err));
     ("details", match err_details err with Some l => PErrors l | None => PUndefined end);
     ("stack", if isDev then PString (err_stack err) else PUndefined)])).

(** What the error handler sends for [err]. *)
Definition errorBody (err : Err) : list (string * jsprop) :=
  [("error", PBool true); ("status", PNumber (statusOf err));
   ("message", PString (messageOf err))]
  ++ match err_details err with Some l => [("details", PErrors l)] | None => [] end
  ++ (if isDev then [("stack", PString (err_stack err))] else []).

Definition handler (r : Route) : Request -> M unit :=
  match r with
  | GET_api_employees => getEmployees
  | GET_api_employees_id => getEmployee
  | POST_api_employees => postEmployees
  | PUT_api_employees_id => putEmployee
  | DELETE_api_employees_id => deleteEmployee
  | GET_api_movies => getMovies
  | GET_api_movies_find => findMovie
  | POST_api_movies => postMovies
  | PUT_api_movies => putMovies
  | DELETE_api_movies => deleteMovies
  | GET_home => home
  | GET_ui_movie_show => showMovie
  | GET_ui_movie_new => newMovieForm
  | POST_ui_movie_new => newMovie
  | GET_ui_movie_update => updateMovieForm
  | POST_ui_movie_update => updateMovie
  | GET_ui_movie_delete => deleteMovieForm
  | POST_ui_movie_delete => deleteMovie
  | GET_healthz => healthz
  | Unknown => routeNotFound
  end.

(** One request: the handler of the route runs on a fresh response; what
    it throws (or passes to [next]) goes to the error handler.  The result
    is the response sent and the store afterwards. *)
Definition serve (r : Route) (req : Request) (s : Store) : Response * Store :=
  match handler r req (initial s) with
  | (Ok _, st) => (res st, store st)
  | (Threw err, st) =>
      let st' := (errorHandler err st).2 in
      (res st', store st')
  end.

(** The movie operations: list, find, create, update and delete, over the
    REST and the UI paths. *)
Definition movieOperation (r : Route) : bool :=
  match r with
  | GET_api_movies | GET_api_movies_find | POST_api_movies | PUT_api_movies
  | DELETE_api_movies | GET_home | GET_ui_movie_show | POST_ui_movie_new
  | POST_ui_movie_update | POST_ui_movie_delete => true
  | _ => false
  end.

(** The filter by which a movie update or delete picks its target. *)
Definition target (r : Route) (req : Request) : option query :=
  match r with
  | PUT_api_movies | POST_ui_movie_update | POST_ui_movie_delete =>
      Some (targetFilter (get (body_ req) "id") (get (body_ req) "movie_id"))
  | DELETE_api_movies =>
      Some (targetFilter (get (query_ req) "id") (get (query_ req) "movie_id"))
  | _ => None
  end.

(** Does the request name a target: [id || movie_id], read where the
    route reads them. *)
Definition suppliesTarget (r : Route) (req : Request) : bool :=
  match r with
  | PUT_api_movies | POST_ui_movie_update | POST_ui_movie_delete =>
      truthy (get (body_ req) "id") || truthy (get (body_ req) "movie_id")
  | DELETE_api_movies =>
      truthy (get (query_ req) "id") || truthy (get (query_ req) "movie_id")
  | _ => false
  end.

(** The line of the route that rejects a request without a target. *)
Definition targetCheck (r : Route) : nat :=
  match r with
  | PUT_api_movies => 538
  | DELETE_api_movies => 554
  | POST_ui_movie_update => 622
  | POST_ui_movie_delete => 645
  | _ => 0
  end.

(** The list and get operations. *)
Definition readOperation (r : Route) : bool :=
  match r with
  | GET_api_employees | GET_api_employees_id | GET_api_movies | GET_api_movies_find
  | GET_home | GET_ui_movie_show => true
  | _ => false
  end.

(** The body of the answer of a movie route when the store is not
    configured. *)
Definition unavailableBody : Body :=
  JsonObject
    [("error", PBool true); ("status", PNumber 503);
     ("message", PString "Movies DB not configured. Set MONGODB_URI_MOVIES in your .env.")].

(** Is the identifier a well-formed ObjectId: does its cast succeed? *)
Definition wellFormedId (id : value) : bool :=
  match castObjectId id with
  | Some _ => true
  | None => false
  end.

(** Can the filter be cast to the schema of the model? *)
Definition castable (m : Model) (f : query) : bool :=
  match castQuery m f with
  | Some _ => true
  | None => false
  end.

(** The routes that create, update and delete a record. *)
Definition createRoute (r : Route) : option Model :=
  match r with
  | POST_api_employees => Some EmployeeModel
  | POST_api_movies | POST_ui_movie_new => Some MovieModel
  | _ => None
  end.

Definition deleteRoute (r : Route) : option Model :=
  match r with
  | DELETE_api_employees_id => Some EmployeeModel
  | DELETE_api_movies | POST_ui_movie_delete => Some MovieModel
  | _ => None
  end.

(** [req] without the properties [ks] of its query and of its body. *)
Definition without (ks : list string) (req : Request) : Request :=
  {| method := method req; originalUrl := originalUrl req; params := params req;
     query_ := fold_right (fun k o => delete k o) (query_ req) ks;
     body_ := fold_right (fun k o => delete k o) (body_ req) ks;
     validation := validation req |}.

(** The filter by which a delete route picks its target, and the response
    of a movie update that found its target. *)
Definition deleteFilter (r : Route) (req : Request) : option query :=
  match r with
  | DELETE_api_employees_id => Some (QId (get (params req) "id"))
  | DELETE_api_movies | POST_ui_movie_delete => target r req
  | _ => None
  end.

Definition updatedResponse (r : Route) (d : Doc) : Response :=
  match r with
  | POST_ui_movie_update =>
      {| status := 200%nat; body := Render "movie-view" (MovieLocals (Some d) None) |}
  | _ => {| status := 200%nat; body := JsonDoc d |}
  end.

(** The [id] of a request, read where the route reads it. *)
Definition suppliedId (r : Route) (req : Request) : value :=
  match r with
  | PUT_api_movies | POST_ui_movie_update | POST_ui_movie_delete => get (body_ req) "id"
  | GET_api_movies_find | GET_ui_movie_show | DELETE_api_movies => get (query_ req) "id"
  | _ => VUndefined
  end.

(** The filter of [GET /api/movies/find]: by [id], else by [movie_id], else
    by title. *)
Definition findFilter (req : Request) : query :=
  let id := get (query_ req) "id" in
  let movie_id := get (query_ req) "movie_id" in
  let title := get (query_ req) "title" in
  if truthy id then QId id
  else if truthy movie_id then movieIdFilter movie_id
  else QOr [QField "movie_title" title; QField "title" title].

(** The line of [GET /api/movies/find] that reports that nothing was
    found. *)
Definition findMiss (req : Request) : nat :=
  if truthy (get (query_ req) "id") then 498
  else if truthy (get (query_ req) "movie_id") then 503
  else 509.

(** The record that [POST /api/movies] creates from a request that passes
    its validation: [movie_id] as it is sent, [movie_title] and [Released]
    as strings. *)
Definition createdMovie (req : Request) (s : Store) : Doc :=
  let b := body_ (runChains movieChains req) in
  let fields := [("movie_id", get b "movie_id"); ("movie_title", get b "movie_title");
                 ("Released", get b "Released")] in
  {| _id := ObjectId (logCall (CallCreate MovieModel fields) s);
     props := assign [("movie_id", get b "movie_id");
                      ("movie_title", castString (get b "movie_title"));
                      ("Released", castString (get b "Released"))] ∅ |}.

(** * Proofs *)

(** ** The normalizer *)

Lemma findName_none obj names :
  findName obj names = None ->
  Forall (fun m => notNull (get obj m) = false) names.
Proof.
  unfold findName. induction names as [|a names IH]; simpl; intros H.
  - constructor.
  - destruct (notNull (get obj a)) eqn:E; [discriminate|].
    constructor; auto.
Qed.

Lemma findName_some obj names n :
  findName obj names = Some n ->
  exists pre post,
    names = pre ++ n :: post /\
    Forall (fun m => notNull (get obj m) = false) pre /\
    notNull (get obj n) = true.
Proof.
  unfold findName. induction names as [|a names IH]; simpl; intros H.
  - discriminate.
  - destruct (notNull (get obj a)) eqn:E.
    + injection H as <-. exists [], names. repeat split; auto.
    + destruct (IH H) as (pre & post & -> & Hpre & Hn).
      exists (a :: pre), post. repeat split; auto.
Qed.

(** [pick] scans the names in order, provided none of them is the empty
    string (which [pick] would take for "not found"). *)
Lemma pick_firstPresent obj names fb :
  "" ∉ names ->
  firstPresent obj names fb (pick obj names fb).
Proof.
  intros Hne. unfold pick.
  destruct (findName obj names) as [n|] eqn:E.
  - destruct (findName_some _ _ _ E) as (pre & post & Hnames & Hpre & Hn).
    assert (truthy (VStr n) = true) as ->.
    { simpl. destruct (String.eqb_spec n ""); [|reflexivity].
      subst n. exfalso. apply Hne. rewrite Hnames.
      apply elem_of_app. right. left. }
    left. exists pre, n, post. auto.
  - right. split; [|reflexivity]. now apply findName_none.
Qed.

Lemma pick_ext obj1 obj2 names fb :
  Forall (fun n => get obj1 n = get obj2 n) names ->
  pick obj1 names fb = pick obj2 names fb.
Proof.
  intros H. unfold pick, findName.
  induction H as [|a names Ha H IH]; simpl; [reflexivity|].
  rewrite <- Ha. destruct (notNull (get obj1 a)); [now rewrite Ha|exact IH].
Qed.

Lemma pick_absent obj names fb :
  Forall (fun n => obj !! n = None) names ->
  pick obj names fb = fb.
Proof.
  intros H. unfold pick, findName.
  induction H as [|a names Ha H IH]; simpl; [reflexivity|].
  unfold get at 1. rewrite Ha. simpl. exact IH.
Qed.

Lemma no_empty_name :
  ("" ∉ titleNames) /\ ("" ∉ idNames) /\ ("" ∉ releasedNames).
Proof.
  repeat split; intros H; apply list_elem_of_In in H; simpl in H;
    intuition discriminate.
Qed.

(** C1. For every raw movie record, each of the three display attributes
    of the normalized view is the value of the first field, in the fixed
    order of the alias list of that attribute, whose value is neither null
    nor undefined, and is the fallback (["(no title)"] for the title, the
    empty string for the external id and the release info) when the record
    has no such field.  A record holding only [title] and [year] gives
    these two values as [movie_title] and [Released]; an empty record gives
    the fallbacks.  The result depends on nothing but the record: two
    records that agree on their identifier and on the alias fields have the
    same view. *)
Theorem normalize_first_alias (d : Doc) :
  firstPresent (props d) ["movie_title"; "title"; "Title"; "name"; "Name"; "MovieTitle"]
               (VStr "(no title)") (movie_title (normalize d)) /\
  firstPresent (props d) ["movie_id"; "movieId"; "movieid"; "MovieID"; "id"; "Id"; "ID"]
               (VStr "") (movie_id (normalize d)) /\
  firstPresent (props d)
               ["Released"; "released"; "release_year"; "releaseYear"; "year"; "Year";
                "ReleaseDate"; "release_date"]
               (VStr "") (Released (normalize d)) /\
  (forall t y : value,
      notNull t = true -> notNull y = true ->
      props d = {["title" := t; "year" := y]} ->
      movie_title (normalize d) = t /\ Released (normalize d) = y) /\
  (props d = ∅ ->
   movie_title (normalize d) = VStr "(no title)" /\
   movie_id (normalize d) = VStr "" /\
   Released (normalize d) = VStr "") /\
  (forall d' : Doc,
      _id d' = _id d ->
      Forall (fun n => get (props d') n = get (props d) n)
             (titleNames ++ idNames ++ releasedNames) ->
      normalize d' = normalize d).
Proof.
  destruct no_empty_name as (Ht & Hi & Hr).
  split; [exact (pick_firstPresent _ _ _ Ht)|].
  split; [exact (pick_firstPresent _ _ _ Hi)|].
  split; [exact (pick_firstPresent _ _ _ Hr)|].
  split; [|split].
  - intros t y Hnt Hny Hd. unfold normalize; simpl. rewrite Hd.
    unfold pick, findName, titleNames, releasedNames, get; simpl.
    split.
    + change (({["title" := t; "year" := y]} : object) !! "movie_title") with (@None value).
      change (({["title" := t; "year" := y]} : object) !! "title") with (Some t).
      simpl. now rewrite Hnt.
    + change (({["title" := t; "year" := y]} : object) !! "Released") with (@None value).
      change (({["title" := t; "year" := y]} : object) !! "released") with (@None value).
      change (({["title" := t; "year" := y]} : object) !! "release_year") with (@None value).
      change (({["title" := t; "year" := y]} : object) !! "releaseYear") with (@None value).
      change (({["title" := t; "year" := y]} : object) !! "year") with (Some y).
      simpl. now rewrite Hny.
  - intros Hd. unfold normalize; simpl. rewrite Hd.
    repeat split; apply pick_absent; repeat constructor.
  - intros d' Hid H.
    apply Forall_app in H as [H1 H]. apply Forall_app in H as [H2 H3].
    unfold normalize. rewrite Hid.
    now rewrite (pick_ext _ _ _ _ H1), (pick_ext _ _ _ _ H2), (pick_ext _ _ _ _ H3).
Qed.

(** ** The identifier filter *)

Lemma fieldEq_notNull (stored : option value) (v : value) :
  notNull v = true ->
  fieldEq stored v = true <-> stored = Some v.
Proof.
  intros Hv. unfold fieldEq. rewrite Hv. apply bool_decide_eq_true.
Qed.

Lemma matches_movieIdFilter raw d :
  matches (movieIdFilter raw) d =
  matches (QNumber "movie_id" (Number raw)) d || matches (QField "movie_id" raw) d.
Proof. simpl. now rewrite orb_false_r. Qed.

Lemma matches_number p n d :
  matches (QNumber p n) d = true <->
  exists z, n = Num z /\ props d !! p = Some (VNum z).
Proof.
  destruct n as [|z]; simpl.
  - split; [discriminate|]. intros (z & Hz & _). discriminate.
  - rewrite fieldEq_notNull by reflexivity. split.
    + intros H. now exists z.
    + intros (z' & Hz & H). now injection Hz as ->.
Qed.

(** C2. For every supplied identifier value [raw] (anything but null and
    undefined), the filter that [movieIdFilter] builds is satisfied by a
    stored record exactly when the [movie_id] of the record is the number
    [Number(raw)] or is [raw] itself, unchanged.  So, [Number("42")] being
    42, the filter for ["42"] is satisfied by a record that stores the
    number 42 and by a record that stores the string ["42"].  When
    [Number(raw)] is [NaN], the filter is still built, its numeric branch
    is satisfied by no record, and the filter selects the records that
    store [raw] itself. *)
Theorem movieIdFilter_number_or_string :
  (forall (raw : value) (d : Doc),
      notNull raw = true ->
      matches (movieIdFilter raw) d = true <->
      (exists z, Number raw = Num z /\ props d !! "movie_id" = Some (VNum z)) \/
      props d !! "movie_id" = Some raw) /\
  (StringToNumber "42" = Num 42 ->
   forall d : Doc,
     props d !! "movie_id" = Some (VNum 42) \/ props d !! "movie_id" = Some (VStr "42") ->
     matches (movieIdFilter (VStr "42")) d = true) /\
  (forall raw : value,
      Number raw = NaN ->
      movieIdFilter raw = QOr [QNumber "movie_id" NaN; QField "movie_id" raw] /\
      forall d : Doc,
        matches (QNumber "movie_id" (Number raw)) d = false /\
        (notNull raw = true ->
         matches (movieIdFilter raw) d = true <-> props d !! "movie_id" = Some raw)).
Proof.
  assert (forall raw d, notNull raw = true ->
            matches (movieIdFilter raw) d = true <->
            (exists z, Number raw = Num z /\ props d !! "movie_id" = Some (VNum z)) \/
            props d !! "movie_id" = Some raw) as Hiff.
  { intros raw d Hraw. rewrite matches_movieIdFilter, orb_true_iff, matches_number.
    simpl. now rewrite (fieldEq_notNull _ _ Hraw). }
  split; [exact Hiff|]. split.
  - intros H42 d Hd. apply Hiff; [reflexivity|].
    destruct Hd as [Hd|Hd]; [left; exists 42; split; [exact H42|exact Hd] | now right].
  - intros raw Hnan. split; [unfold movieIdFilter; now rewrite Hnan|].
    intros d. split; [now rewrite Hnan|].
    intros Hraw. rewrite (Hiff raw d Hraw). rewrite Hnan. split.
    + intros [(z & Hz & _)|H]; [discriminate|exact H].
    + now right.
Qed.

(** ** The error handler *)

Lemma errorHandler_run err st :
  errorHandler err st =
  (Ok tt, {| store := store st;
             res := {| status := statusOf err; body := JsonObject (errorBody err) |};
             sent := true |}).
Proof.
  unfold errorHandler, errorBody, res_status, res_json, res_end, bind, stringify.
  simpl. destruct (err_details err), isDev; reflexivity.
Qed.

Lemma serve_threw r req s err st :
  handler r req (initial s) = (Threw err, st) ->
  serve r req s =
  ({| status := statusOf err; body := JsonObject (errorBody err) |}, store st).
Proof. intros H. unfold serve. rewrite H, errorHandler_run. reflexivity. Qed.

Lemma isDev_spec : isDev = true <-> NODE_ENV process_env <> VStr "production".
Proof.
  unfold isDev. rewrite negb_true_iff. apply bool_decide_eq_false.
Qed.

Lemma stack_key err :
  "stack" ∈ keys (errorBody err) <-> NODE_ENV process_env <> VStr "production".
Proof.
  rewrite <- isDev_spec. unfold errorBody, keys.
  rewrite list_elem_of_In.
  destruct (err_details err), isDev; simpl; intuition discriminate.
Qed.

(** C8. Whatever error reaches the boundary, the error handler answers
    with the JSON object [{error: true, status, message}], followed by
    [details] when the error carries details and by [stack] when the
    process is not in production mode, and with nothing else.  The status
    of the response and of the body is the status code of the error (a
    positive number), and 500 when the error carries none; the message is
    a string.  [stack] is present exactly when [NODE_ENV] is not
    ["production"].  The handler does not touch the store.  Every error that
    a route throws, or passes on, is answered in this way, and so is a
    request for an unknown route, with status 404. *)
Theorem errorHandler_body (err : Err) (st : State) :
  let st' := (errorHandler err st).2 in
  (exists (code : nat) (message : string),
      status (res st') = code /\
      body (res st') =
        JsonObject ([("error", PBool true); ("status", PNumber code);
                     ("message", PString message)]
                    ++ match err_details err with
                       | Some l => [("details", PErrors l)]
                       | None => []
                       end
                    ++ (if bool_decide (NODE_ENV process_env = VStr "production")
                        then []
                        else [("stack", PString (err_stack err))])) /\
      (forall c : nat, err_status err = Some c -> (0 < c)%nat -> code = c) /\
      (err_status err = None -> code = 500%nat)) /\
  (forall o, body (res st') = JsonObject o ->
             "stack" ∈ keys o <-> NODE_ENV process_env <> VStr "production") /\
  store st' = store st /\
  (forall (r : Route) (req : Request) (s : Store) (st0 : State),
      handler r req (initial s) = (Threw err, st0) ->
      (serve r req s).1 = res (errorHandler err st0).2) /\
  (forall (req : Request) (s : Store),
      serve Unknown req s =
      ({| status := 404%nat;
          body := JsonObject (errorBody
                    (httpError 659
                       ("Route not found: " ++ method req ++ " " ++ originalUrl req)
                       404)) |}, s)).
Proof.
  cbv zeta. split; [|split; [|split; [|split]]].
  - rewrite errorHandler_run. cbn [snd res status body].
    exists (statusOf err), (messageOf err).
    split; [reflexivity|]. split; [|split].
    + unfold errorBody, isDev. now destruct (bool_decide _).
    + intros c Hc Hpos. unfold statusOf. rewrite Hc. destruct c; [lia|reflexivity].
    + intros Hn. unfold statusOf. now rewrite Hn.
  - rewrite errorHandler_run. cbn [snd res body].
    intros o Ho. injection Ho as <-. apply stack_key.
  - rewrite errorHandler_run. reflexivity.
  - intros r req s st0 Hh.
    rewrite (serve_threw _ _ _ _ _ Hh), errorHandler_run. reflexivity.
  - intros req s.
    rewrite (serve_threw Unknown req s _ (initial s) eq_refl). reflexivity.
Qed.

(** ** Routes *)

Lemma Movie_cases : Movie = None \/ Movie = Some MovieModel.
Proof. unfold Movie. destruct (truthy MOV_URI); auto. Qed.

(** *** Casting the filters and the fields of the routes *)

Lemma castQuery_QAll m : castQuery m QAll = Some QAll.
Proof. reflexivity. Qed.

Lemma castQuery_QId m id :
  castQuery m (QId id) =
  match castObjectId id with Some _ => Some (QId id) | None => None end.
Proof. reflexivity. Qed.

Lemma castQuery_movieIdFilter v :
  castQuery MovieModel (movieIdFilter v) = Some (movieIdFilter v).
Proof. reflexivity. Qed.

Lemma castQuery_targetFilter id movie_id :
  castQuery MovieModel (targetFilter id movie_id) =
  if castable MovieModel (targetFilter id movie_id)
  then Some (targetFilter id movie_id) else None.
Proof.
  unfold castable, targetFilter. destruct (truthy id).
  - rewrite castQuery_QId. now destruct (castObjectId id).
  - now rewrite castQuery_movieIdFilter.
Qed.

Lemma castQuery_title t :
  castQuery MovieModel (QOr [QField "movie_title" t; QField "title" t]) =
  Some (QOr [QField "movie_title" (castString t); QField "title" t]).
Proof. reflexivity. Qed.

Lemma castable_QId m id : castable m (QId id) = wellFormedId id.
Proof. unfold castable, wellFormedId. rewrite castQuery_QId. now destruct (castObjectId id). Qed.

Lemma castable_movieIdFilter v : castable MovieModel (movieIdFilter v) = true.
Proof. reflexivity. Qed.

Lemma castable_targetFilter id movie_id :
  castable MovieModel (targetFilter id movie_id) =
  if truthy id then wellFormedId id else true.
Proof.
  unfold targetFilter. destruct (truthy id);
    [apply castable_QId | apply castable_movieIdFilter].
Qed.

(** A filter by an identifier that is not well formed is satisfied by no
    document. *)
Lemma matches_malformed id d : wellFormedId id = false -> matches (QId id) d = false.
Proof. unfold wellFormedId. simpl. now destruct (castObjectId id). Qed.

Lemma uncastable_target id movie_id d :
  castable MovieModel (targetFilter id movie_id) = false ->
  matches (targetFilter id movie_id) d = false.
Proof.
  rewrite castable_targetFilter. unfold targetFilter.
  destruct (truthy id); [apply matches_malformed | discriminate].
Qed.

Lemma castFields_movie_set t r :
  castFields MovieModel [("movie_title", t); ("Released", r)] =
  Some [("movie_title", castString t); ("Released", castString r)].
Proof. reflexivity. Qed.

Lemma newDocument_movie i t r :
  newDocument MovieModel [("movie_id", i); ("movie_title", t); ("Released", r)] =
  Some (assign [("movie_id", i); ("movie_title", castString t); ("Released", castString r)] ∅).
Proof. reflexivity. Qed.


Ltac unfold_routes :=
  unfold serve, handler, getEmployees, getEmployee, postEmployees, putEmployee,
    deleteEmployee, getMovies, findMovie, postMovies, putMovies, deleteMovies, home,
    showMovie, newMovieForm, newMovie, updateMovieForm, updateMovie, deleteMovieForm,
    deleteMovie, healthz, routeNotFound, ensureMovieConn, findByIdAndUpdate.

Ltac unfold_monad :=
  cbv [bind ret throw onModel find findOne findById findOneAndUpdate deleteOne create
       res_status res_json res_send res_render res_redirect res_end initial withStore
       errorHandler Employee];
  cbn [fst snd store res sent status body];
  rewrite ?castQuery_QAll, ?castQuery_movieIdFilter, ?castQuery_targetFilter,
    ?castQuery_title, ?castQuery_QId, ?castFields_movie_set, ?newDocument_movie;
  cbn [fst snd store res sent status body].

(** Case analysis on the innermost test of the goal. *)
Ltac branch :=
  match goal with
  | |- context [match ?x with _ => _ end] =>
      lazymatch x with
      | context [match _ with _ => _ end] => fail
      | _ => destruct x eqn:?
      end
  end; cbn [fst snd store res sent status body].

(** Running a route on a configured, or on an unconfigured, movies store. *)
Ltac run HM := unfold_routes; rewrite ?HM; unfold_monad.

(** C3. For every movie operation (list, find, create, update and delete,
    over the REST and the UI paths): when the movies store was never
    configured, the answer has status 503 and the service-unavailable body,
    and the store is left exactly as it was, the log of store calls
    included, so no store call was made; when the store is configured, the
    answer never has status 503. *)
Theorem movie_routes_unavailable (r : Route) (req : Request) (s : Store) :
  movieOperation r = true ->
  (Movie = None ->
   (serve r req s).1 = {| status := 503%nat; body := unavailableBody |} /\
   (serve r req s).2 = s /\
   calls (serve r req s).2 = calls s) /\
  (Movie <> None -> status (serve r req s).1 <> 503%nat).
Proof.
  intros Hr. split.
  - intros HM. destruct r; try discriminate Hr; run HM; repeat split; reflexivity.
  - intros HM. destruct Movie_cases as [HN|HS]; [contradiction|].
    destruct r; try discriminate Hr; run HS; repeat branch; discriminate.
Qed.

Lemma filter_all (l : list Doc) : List.filter (matches QAll) l = l.
Proof. induction l as [|d l IH]; simpl; [reflexivity|f_equal; exact IH]. Qed.

(** C5. Whatever the stores hold, the movie list operation returns at most
    200 records (the first 200 of the collection when the movies store is
    configured), and the employee list operation returns all the employee
    records. *)
Theorem list_limits (req : Request) (s : Store) :
  (length (records (body (serve GET_api_movies req s).1)) <= 200)%nat /\
  (Movie <> None ->
   (serve GET_api_movies req s).1 =
   {| status := 200%nat; body := JsonDocs (firstn 200 (movies s)) |}) /\
  (serve GET_api_employees req s).1 =
  {| status := 200%nat; body := JsonDocs (employees s) |}.
Proof.
  split; [|split].
  - destruct Movie_cases as [HM|HM]; run HM; cbn [collection logCall movies records limited].
    + simpl. lia.
    + rewrite filter_all. apply firstn_le_length.
  - intros HM. destruct Movie_cases as [HN|HS]; [contradiction|].
    run HS. cbn [collection logCall movies limited]. now rewrite filter_all.
  - run I. cbn [collection logCall employees limited]. now rewrite filter_all.
Qed.

(** ** Updates and deletes act on the first match *)

Lemma firstMatchOnly_cons f a l l' :
  matches f a = false ->
  firstMatchOnly f l l' ->
  firstMatchOnly f (a :: l) (a :: l').
Proof.
  intros Ha H. destruct H as [l|pre d d' post Hpre Hd Hid|pre d post Hpre Hd].
  - apply fm_same.
  - apply (fm_replaced f (a :: pre) d d' post); auto.
  - apply (fm_removed f (a :: pre) d post); auto.
Qed.

Lemma updateFirst_firstMatchOnly f g l :
  (forall d, _id (g d) = _id d) ->
  firstMatchOnly f l (updateFirst f g l).
Proof.
  intros Hg. induction l as [|a l IH]; simpl.
  - apply fm_same.
  - destruct (matches f a) eqn:Ha.
    + apply (fm_replaced f [] a (g a) l); auto.
    + now apply firstMatchOnly_cons.
Qed.

Lemma removeFirst_firstMatchOnly f l :
  firstMatchOnly f l (removeFirst f l).
Proof.
  induction l as [|a l IH]; simpl.
  - apply fm_same.
  - destruct (matches f a) eqn:Ha.
    + apply (fm_removed f [] a l); auto.
    + now apply firstMatchOnly_cons.
Qed.

Lemma removeFirst_no_match f l :
  existsb (matches f) l = false -> removeFirst f l = l.
Proof.
  induction l as [|a l IH]; simpl; [reflexivity|].
  destruct (matches f a); simpl; [discriminate|].
  intros H. now rewrite IH.
Qed.

Ltac stores := cbn [setCollection collection logCall movies employees calls].

Ltac proj := cbn [fst snd store res sent status body]; stores.

(** C4. A movie update or delete (over the REST and the UI paths) picks its
    target with the filter [{_id: id}] when an [id] is supplied and with
    the flexible filter [movieIdFilter(movie_id)] otherwise.  Whatever
    number of stored records satisfy that filter, the movie collection
    after the request is the collection before it with at most one record
    replaced (under its identifier) or removed, and that record is the
    first one, in the order of the store, that satisfies the filter; every
    other movie record keeps its place and its content, and the employee
    collection is unchanged.  The list and get operations change no record
    of either collection. *)
Theorem movie_write_first_match (r : Route) (req : Request) (s : Store) :
  (forall id movie_id : value,
      truthy id = false -> targetFilter id movie_id = movieIdFilter movie_id) /\
  (forall f : query,
      target r req = Some f ->
      firstMatchOnly f (movies s) (movies (serve r req s).2) /\
      employees (serve r req s).2 = employees s) /\
  (readOperation r = true ->
   movies (serve r req s).2 = movies s /\
   employees (serve r req s).2 = employees s).
Proof.
  split; [|split].
  - intros id movie_id Hid. unfold targetFilter. now rewrite Hid.
  - intros f Hf.
    destruct Movie_cases as [HM|HM];
      destruct r; try discriminate Hf; injection Hf as <-;
      run HM; repeat branch; stores;
      (split; [|reflexivity]);
      first [ apply fm_same
            | apply removeFirst_firstMatchOnly
            | apply updateFirst_firstMatchOnly; reflexivity ].
  - intros Hr.
    destruct Movie_cases as [HM|HM];
      destruct r; try discriminate Hr;
      run HM; repeat branch; stores; split; reflexivity.
Qed.

(** ** Deleting what is not there *)

Lemma neither_nor (a b : bool) :
  negb a && negb b = true -> a || b = true -> False.
Proof. destruct a, b; discriminate. Qed.

(** C7 (amended). A delete request whose target does not exist never has
    the status 200 and leaves both collections as they were.  It is
    answered with the not-found status 404: for an employee, when the
    identifier of the request is a well-formed ObjectId and no record has
    it; for a movie (over the REST and the UI paths), when the movies store
    is configured, the request supplies an [id] or a [movie_id], the [id],
    if any, is a well-formed ObjectId, and no record satisfies the filter
    built from them.  When the movies store is not configured a movie
    delete is answered with 503 instead.  (A filter by [movie_id] can
    always be cast; a filter by [id] can be cast when the [id] is well
    formed.) *)
Theorem delete_missing_target (req : Request) (s : Store) :
  (existsb (matches (QId (get (params req) "id"))) (employees s) = false ->
   (wellFormedId (get (params req) "id") = true ->
    status (serve DELETE_api_employees_id req s).1 = 404%nat) /\
   status (serve DELETE_api_employees_id req s).1 <> 200%nat /\
   employees (serve DELETE_api_employees_id req s).2 = employees s /\
   movies (serve DELETE_api_employees_id req s).2 = movies s) /\
  (forall (r : Route) (f : query),
      r = DELETE_api_movies \/ r = POST_ui_movie_delete ->
      target r req = Some f ->
      existsb (matches f) (movies s) = false ->
      (Movie <> None -> suppliesTarget r req = true -> castable MovieModel f = true ->
       status (serve r req s).1 = 404%nat) /\
      (Movie = None -> status (serve r req s).1 = 503%nat) /\
      status (serve r req s).1 <> 200%nat /\
      employees (serve r req s).2 = employees s /\
      movies (serve r req s).2 = movies s) /\
  (forall id movie_id : value,
      castable MovieModel (targetFilter id movie_id) =
      if truthy id then wellFormedId id else true).
Proof.
  split; [|split].
  - intros Hno. unfold wellFormedId. run I. stores.
    destruct (castObjectId (get (params req) "id")) eqn:Hc; proj.
    + rewrite Hno. cbn [Nat.eqb]. proj.
      rewrite (removeFirst_no_match _ _ Hno).
      split; [reflexivity|]. split; [discriminate|]. split; reflexivity.
    + split; [discriminate|]. split; [discriminate|]. split; reflexivity.
  - intros r f Hr Hf Hno.
    assert (removeFirst f (movies s) = movies s) as Hrm
        by exact (removeFirst_no_match _ _ Hno).
    destruct Movie_cases as [HM|HM];
      destruct Hr as [-> | ->]; injection Hf as <-;
      unfold suppliesTarget; run HM; stores;
      repeat (branch; stores; rewrite ?Hno, ?Hrm; cbn [Nat.eqb]; proj);
      (split; [intros HC Hs Hcast;
               first [ contradiction | discriminate | reflexivity
                     | exfalso; eapply neither_nor; eassumption ]|]);
      (split; [intros HC; first [ discriminate | reflexivity ]|]);
      (split; [try discriminate|]);
      split; reflexivity.
  - exact castable_targetFilter.
Qed.

(** ** Showing one movie *)

(** C9 (amended). On a configured movies store, a [GET /ui/movie/show]
    request that supplies neither an [id] nor a [movie_id], or whose [id],
    a well-formed ObjectId, (or, without [id], whose [movie_id]) matches no
    stored record, is answered with status 200 and the movie view rendered
    with a null movie.  When the store is not configured the answer is 503.
    In no case is the answer the 400 or the 404 that the REST find path
    gives on a configured store: 400 when neither [id], [movie_id] nor
    [title] is supplied, 404 when the identifier matches no record. *)
Theorem show_missing_movie (req : Request) (s : Store) :
  let id := get (query_ req) "id" in
  let movie_id := get (query_ req) "movie_id" in
  let title := get (query_ req) "title" in
  let unmatched :=
    (truthy id = true /\ wellFormedId id = true /\
     List.find (matches (QId id)) (movies s) = None) \/
    (truthy id = false /\ truthy movie_id = true /\
     List.find (matches (movieIdFilter movie_id)) (movies s) = None) in
  (Movie <> None ->
   (truthy id = false /\ truthy movie_id = false) \/ unmatched ->
   (serve GET_ui_movie_show req s).1 =
   {| status := 200%nat;
      body := Render "movie-view" (MovieLocals None (Some (debugMode req))) |}) /\
  (Movie = None -> status (serve GET_ui_movie_show req s).1 = 503%nat) /\
  (status (serve GET_ui_movie_show req s).1 <> 400%nat /\
   status (serve GET_ui_movie_show req s).1 <> 404%nat) /\
  (Movie <> None ->
   truthy id = false -> truthy movie_id = false -> truthy title = false ->
   status (serve GET_api_movies_find req s).1 = 400%nat) /\
  (Movie <> None -> unmatched ->
   status (serve GET_api_movies_find req s).1 = 404%nat).
Proof.
  intros id movie_id title unmatched. subst unmatched id movie_id title.
  unfold wellFormedId.
  split; [|split; [|split; [|split]]].
  - intros HC H. destruct Movie_cases as [HM|HM]; [contradiction|].
    run HM. stores.
    destruct H as [[Hi Hm] | [(Hi & Hw & Hf) | (Hi & Hm & Hf)]];
      rewrite ?Hi, ?Hm; unfold_monad; stores;
      try (destruct (castObjectId (get (query_ req) "id")); [|discriminate Hw]);
      proj; rewrite ?Hf; reflexivity.
  - intros HM. run HM. reflexivity.
  - destruct Movie_cases as [HM|HM]; run HM; repeat branch; split; discriminate.
  - intros HC Hi Hm Ht. destruct Movie_cases as [HM|HM]; [contradiction|].
    run HM. rewrite Hi, Hm, Ht. reflexivity.
  - intros HC H. destruct Movie_cases as [HM|HM]; [contradiction|].
    run HM. stores.
    destruct H as [(Hi & Hw & Hf) | (Hi & Hm & Hf)];
      rewrite ?Hi, ?Hm; unfold_monad; stores;
      try (destruct (castObjectId (get (query_ req) "id")); [|discriminate Hw]);
      proj; rewrite ?Hf; reflexivity.
Qed.

(** ** Validation on the create paths *)

Lemma get_insert_ne (b : object) (k k' : string) (v : value) :
  k <> k' -> get (<[k := v]> b) k' = get b k'.
Proof. intros H. unfold get. now rewrite lookup_insert_ne. Qed.

(** What the chains of [POST /api/employees] report. *)
Lemma employee_validation (req : Request) :
  let name := get (body_ req) "name" in
  let salary := get (body_ req) "salary" in
  let age := get (body_ req) "age" in
  validationResult (runChains employeeChains req) =
  validation req
  ++ (if String.eqb (trim (toString name)) ""
      then [mkFieldError "name" "Invalid value" (VStr (trim (toString name)))] else [])
  ++ (if numericString (toString salary)
      then [] else [mkFieldError "salary" "Invalid value" salary])
  ++ (if numericString (toString age)
      then [] else [mkFieldError "age" "Invalid value" age]).
Proof.
  intros name salary age. subst name salary age.
  unfold validationResult, runChains, employeeChains, runChain. cbn [fold_left].
  cbn [chain_field chain_steps runSteps notEmpty isNumeric withValidation withBody
       body_ validation].
  change (toString (VStr (trim (toString (get (body_ req) "name")))))
    with (trim (toString (get (body_ req) "name"))).
  destruct (decide (VStr (trim (toString (get (body_ req) "name"))) = get (body_ req) "name"))
    as [He|Hne]; cbn [body_ validation];
    rewrite ?get_insert_ne by discriminate;
    destruct (decide (get (body_ req) "salary" = get (body_ req) "salary")); try congruence;
    cbn [body_ validation];
    rewrite ?get_insert_ne by discriminate;
    destruct (decide (get (body_ req) "age" = get (body_ req) "age")); try congruence;
    cbn [body_ validation];
    now rewrite <- !app_assoc.
Qed.

Lemma movie_validation (req : Request) :
  let title := get (body_ req) "movie_title" in
  validationResult (runChains movieChains req) =
  validation req
  ++ (if String.eqb (trim (toString title)) ""
      then [mkFieldError "movie_title" "movie_title is required"
              (VStr (trim (toString title)))] else []).
Proof.
  intros title. subst title.
  unfold validationResult, runChains, movieChains, runChain. cbn [fold_left].
  cbn [chain_field chain_steps runSteps withValidation withBody body_ validation].
  change (toString (VStr (trim (toString (get (body_ req) "movie_title")))))
    with (trim (toString (get (body_ req) "movie_title"))).
  destruct (decide (VStr (trim (toString (get (body_ req) "movie_title")))
                    = get (body_ req) "movie_title")); reflexivity.
Qed.




Lemma movie_chains_keep (req : Request) (k : string) :
  k <> "movie_title" ->
  get (body_ (runChains movieChains req)) k = get (body_ req) k.
Proof.
  intros Hk. unfold runChains, movieChains, runChain. cbn [fold_left].
  cbn [chain_field chain_steps runSteps withValidation withBody body_].
  destruct (decide _); cbn [body_]; [reflexivity|].
  apply get_insert_ne. congruence.
Qed.

Lemma app_not_nil {A} (l1 l2 : list A) : l2 <> [] -> l1 ++ l2 <> [].
Proof. intros H E. apply app_eq_nil in E as [_ E]. contradiction. Qed.





(** ** Creating records *)


(** The REST create paths validate: a request in which a required field
    is missing (or empty, or not numeric where a number is required) is
    answered with 400 and the list of the violated fields, and no record is
    created. *)
Lemma rest_create_validates (req : Request) (s : Store) :
  (trim (toString (get (body_ req) "name")) = ""
   \/ numericString (toString (get (body_ req) "salary")) = false
   \/ numericString (toString (get (body_ req) "age")) = false ->
   exists details : list FieldError,
     details <> [] /\
     (serve POST_api_employees req s).1 =
     {| status := 400%nat;
        body := JsonObject (errorBody (validationFailed 453 details)) |} /\
     (serve POST_api_employees req s).2 = s) /\
  (Movie <> None ->
   trim (toString (get (body_ req) "movie_title")) = "" ->
   exists details : list FieldError,
     details <> [] /\
     (serve POST_api_movies req s).1 =
     {| status := 400%nat;
        body := JsonObject (errorBody (validationFailed 523 details)) |} /\
     (serve POST_api_movies req s).2 = s).
Proof.
  split.
  - intros H.
    assert (validationResult (runChains employeeChains req) <> []) as Hne.
    { rewrite employee_validation. cbv zeta. apply app_not_nil.
      destruct H as [H|[H|H]]; rewrite H; cbn [String.eqb];
        repeat match goal with |- context [if ?b then _ else _] => destruct b end;
        discriminate. }
    exists (validationResult (runChains employeeChains req)). split; [exact Hne|].
    assert (handler POST_api_employees req (initial s) =
            (Threw (validationFailed 453 (validationResult (runChains employeeChains req))),
             initial s)) as Hh.
    { unfold handler, postEmployees.
      rewrite bool_decide_eq_false_2 by exact Hne. reflexivity. }
    rewrite (serve_threw _ _ _ _ _ Hh). split; reflexivity.
  - intros HC H. destruct Movie_cases as [HM|HM]; [contradiction|].
    assert (validationResult (runChains movieChains req) <> []) as Hne.
    { rewrite movie_validation. cbv zeta. apply app_not_nil.
      rewrite H. discriminate. }
    exists (validationResult (runChains movieChains req)). split; [exact Hne|].
    assert (handler POST_api_movies req (initial s) =
            (Threw (validationFailed 523 (validationResult (runChains movieChains req))),
             initial s)) as Hh.
    { unfold handler, postMovies, ensureMovieConn. rewrite HM.
      unfold bind, ret. rewrite bool_decide_eq_false_2 by exact Hne. reflexivity. }
    rewrite (serve_threw _ _ _ _ _ Hh). split; reflexivity.
Qed.

(** The UI create path does not: on a configured store every request
    creates a record and is redirected to the home page. *)
Lemma ui_create_unvalidated (req : Request) (s : Store) :
  Movie <> None ->
  exists d : Doc,
    props d = assign [("movie_id", get (body_ req) "movie_id");
                      ("movie_title", castString (get (body_ req) "movie_title"));
                      ("Released", castString (get (body_ req) "Released"))] ∅ /\
    (serve POST_ui_movie_new req s).1 = {| status := 302%nat; body := Redirect "/" |} /\
    movies (serve POST_ui_movie_new req s).2 = movies s ++ [d].
Proof.
  intros HC. destruct Movie_cases as [HM|HM]; [contradiction|].
  eexists. split; [|split].
  3:{ run HM. reflexivity. }
  - reflexivity.
  - run HM. reflexivity.
Qed.

(** * Further properties of the routes *)

Lemma updateFirst_no_match f g l :
  List.find (matches f) l = None -> updateFirst f g l = l.
Proof.
  induction l as [|a l IH]; simpl; [reflexivity|].
  destruct (matches f a); [discriminate|].
  intros H. now rewrite IH.
Qed.

Lemma fmap_find_None (g : Doc -> Doc) f l :
  g <$> List.find (matches f) l = None -> List.find (matches f) l = None.
Proof. destruct (List.find (matches f) l); [discriminate|reflexivity]. Qed.

(** Closing the cases in which nothing matched: the collection is the one
    before. *)
Ltac unmatched :=
  repeat match goal with
    | H : existsb (matches ?f) ?l = false |- _ =>
        rewrite (removeFirst_no_match f l H) in *; clear H
    | H : _ <$> List.find (matches ?f) ?l = None |- _ =>
        rewrite (updateFirst_no_match f _ l (fmap_find_None _ f l H)) in *; clear H
    end.

(** Case analysis that also settles the test of [deletedCount]. *)
Ltac cases := repeat (branch; cbn [Nat.eqb]; stores).

(** Running a route up to the error handler, then through it. *)
Ltac run_route HM :=
  unfold_routes; rewrite ?HM;
  cbv [bind ret throw onModel find findOne findById findOneAndUpdate deleteOne create
       res_status res_json res_send res_render res_redirect res_end initial withStore
       Employee];
  cbn [fst snd store res sent status body];
  rewrite ?castQuery_QAll, ?castQuery_movieIdFilter, ?castQuery_targetFilter,
    ?castQuery_title, ?castQuery_QId, ?castFields_movie_set, ?newDocument_movie;
  cbn [fst snd store res sent status body].

Ltac handled :=
  rewrite ?errorHandler_run; cbn [fst snd store res sent status body];
  cbv [statusOf notFound missingTarget validationFailed runtimeError httpError newError
       err_status].


(** A request answered with an error status (400 or above) leaves both
    collections as they were. *)
Theorem errors_change_nothing (r : Route) (req : Request) (s : Store) :
  (400 <= status (serve r req s).1)%nat ->
  employees (serve r req s).2 = employees s /\
  movies (serve r req s).2 = movies s.
Proof.
  destruct Movie_cases as [HM|HM]; destruct r; run HM; stores; cases;
    unmatched; simpl; intros Hs; try lia; split; reflexivity.
Qed.

(** The log of the calls made on the models only grows, by at most two
    calls per request; two calls are made only by a [POST /api/employees]
    that creates a record (the creation, then the listing of all
    employees). *)
Theorem store_calls (r : Route) (req : Request) (s : Store) :
  exists l : list StoreCall,
    calls (serve r req s).2 = calls s ++ l /\
    (length l <= 2)%nat /\
    (length l = 2%nat ->
     r = POST_api_employees /\ status (serve r req s).1 = 200%nat).
Proof.
  destruct Movie_cases as [HM|HM]; destruct r; run HM; stores; cases;
    first [ exists []; split; [now rewrite app_nil_r|]; simpl; split; [lia|discriminate]
          | eexists; split; [reflexivity|]; simpl; split; [lia|discriminate]
          | eexists; split; [rewrite <- app_assoc; reflexivity|];
            simpl; split; [lia|intros _; split; reflexivity] ].
Qed.

(** ** What a delete and an update do to the record they find *)

Lemma removeFirst_split f l :
  existsb (matches f) l = true ->
  exists pre d post,
    l = pre ++ d :: post /\
    Forall (fun x => matches f x = false) pre /\
    matches f d = true /\
    removeFirst f l = pre ++ post.
Proof.
  induction l as [|a l IH]; simpl; [discriminate|].
  destruct (matches f a) eqn:Ha; simpl.
  - intros _. exists [], a, l. auto.
  - intros H. destruct (IH H) as (pre & d & post & -> & Hpre & Hd & Hr).
    exists (a :: pre), d, post. rewrite Hr. auto.
Qed.

Lemma updateFirst_split f g l d :
  List.find (matches f) l = Some d ->
  exists pre post,
    l = pre ++ d :: post /\
    Forall (fun x => matches f x = false) pre /\
    matches f d = true /\
    updateFirst f g l = pre ++ g d :: post.
Proof.
  induction l as [|a l IH]; simpl; [discriminate|].
  destruct (matches f a) eqn:Ha.
  - intros H. injection H as <-. exists [], l. auto.
  - intros H. destruct (IH H) as (pre & post & -> & Hpre & Hd & Hr).
    exists (a :: pre), post. rewrite Hr. auto.
Qed.

Lemma matches_QId id d : matches (QId id) d = true <-> castObjectId id = Some (_id d).
Proof.
  simpl. destruct (castObjectId id) as [oid|]; [|split; discriminate].
  rewrite String.eqb_eq. split; [now intros -> | now intros [= ->]].
Qed.

Lemma existsb_uncastable (f : query) (l : list Doc) :
  (forall d, matches f d = false) -> existsb (matches f) l = false.
Proof.
  intros H. induction l as [|a l IH]; simpl; [reflexivity|]. now rewrite H, IH.
Qed.

(** The answer of a delete route whose filter is [f], on a configured
    store and with a target supplied. *)
Lemma serve_delete (r : Route) (req : Request) (s : Store) (m : Model) (f : query) :
  deleteRoute r = Some m ->
  deleteFilter r req = Some f ->
  (m = MovieModel -> Movie <> None /\ suppliesTarget r req = true) ->
  (castable m f = false /\ (forall d, matches f d = false) /\
   status (serve r req s).1 = 500%nat /\
   collection m (serve r req s).2 = collection m s) \/
  (castable m f = true /\
   status (serve r req s).1 =
     (if existsb (matches f) (collection m s)
      then match r with POST_ui_movie_delete => 302 | _ => 200 end
      else 404)%nat /\
   collection m (serve r req s).2 = removeFirst f (collection m s)).
Proof.
  intros Hm Hf Hc.
  destruct r; try discriminate Hm; injection Hm as <-; injection Hf as <-.
  - clear Hc. rewrite castable_QId. unfold wellFormedId. run_route I. stores.
    destruct (castObjectId (get (params req) "id")) eqn:Hw; proj.
    + right. split; [reflexivity|].
      destruct (existsb _ (employees s)); cbn [Nat.eqb]; handled; proj; split; reflexivity.
    + left. handled. split; [reflexivity|]. split; [|split; reflexivity].
      intros d. apply matches_malformed. unfold wellFormedId. now rewrite Hw.
  - destruct (Hc eq_refl) as [HC Hs]. destruct Movie_cases as [HM|HM]; [contradiction|].
    unfold suppliesTarget in Hs. apply orb_true_iff in Hs.
    assert (negb (truthy (get (query_ req) "id")) &&
            negb (truthy (get (query_ req) "movie_id")) = false) as Hn
        by (destruct Hs as [-> | ->]; [reflexivity | apply andb_false_r]).
    cbn [target]. run_route HM. rewrite Hn. proj.
    destruct (castable MovieModel _) eqn:Hw; proj.
    + right. split; [reflexivity|].
      destruct (existsb _ (movies s)); cbn [Nat.eqb]; handled; proj; split; reflexivity.
    + left. handled. split; [reflexivity|]. split; [|split; reflexivity].
      intros d. now apply uncastable_target.
  - destruct (Hc eq_refl) as [HC Hs]. destruct Movie_cases as [HM|HM]; [contradiction|].
    unfold suppliesTarget in Hs. apply orb_true_iff in Hs.
    assert (negb (truthy (get (body_ req) "id")) &&
            negb (truthy (get (body_ req) "movie_id")) = false) as Hn
        by (destruct Hs as [-> | ->]; [reflexivity | apply andb_false_r]).
    cbn [target]. run_route HM. rewrite Hn. proj.
    destruct (castable MovieModel _) eqn:Hw; proj.
    + right. split; [reflexivity|].
      destruct (existsb _ (movies s)); cbn [Nat.eqb]; handled; proj; split; reflexivity.
    + left. handled. split; [reflexivity|]. split; [|split; reflexivity].
      intros d. now apply uncastable_target.
Qed.

(** A delete (of an employee, or, on a configured store and with an [id] or
    a [movie_id] supplied, of a movie over the REST or the UI path) succeeds
    exactly when some record satisfies its filter: a filter by identifier
    is satisfied by the records whose [_id] is the ObjectId that the
    identifier of the request casts to, and by none when the cast fails.
    The delete then removes the first such record and nothing else: the
    records before it and after it stay, in their order. *)
Theorem delete_outcome (r : Route) (req : Request) (s : Store) (m : Model) (f : query) :
  deleteRoute r = Some m ->
  deleteFilter r req = Some f ->
  (m = MovieModel -> Movie <> None /\ suppliesTarget r req = true) ->
  ((status (serve r req s).1 < 400)%nat <-> existsb (matches f) (collection m s) = true) /\
  (existsb (matches f) (collection m s) = true ->
   exists pre d post,
     collection m s = pre ++ d :: post /\
     Forall (fun x => matches f x = false) pre /\
     matches f d = true /\
     collection m (serve r req s).2 = pre ++ post) /\
  (forall (id : value) (d : Doc),
      matches (QId id) d = true <-> castObjectId id = Some (_id d)).
Proof.
  intros Hm Hf Hc.
  destruct (serve_delete r req s m f Hm Hf Hc) as [(Hw & Hno & Hs & Hcoll)|(Hw & Hs & Hcoll)].
  - rewrite (existsb_uncastable f _ Hno), Hs. split; [|split].
    + split; [lia | discriminate].
    + discriminate.
    + intros id d. apply matches_QId.
  - split; [|split].
    + rewrite Hs. destruct (existsb _ _); [|split; [lia|discriminate]].
      destruct r; split; intros; try reflexivity; lia.
    + intros He. rewrite Hcoll. now apply removeFirst_split.
    + intros id d. apply matches_QId.
Qed.

Lemma assign_update (o : object) (t r : value) :
  let o' := assign [("movie_title", t); ("Released", r)] o in
  (forall k : string, k <> "movie_title" -> k <> "Released" -> o' !! k = o !! k) /\
  (t <> VUndefined -> o' !! "movie_title" = Some t) /\
  (r <> VUndefined -> o' !! "Released" = Some r).
Proof.
  unfold assign. simpl.
  destruct (decide (t = VUndefined)), (decide (r = VUndefined));
    repeat split; intros; simplify_map_eq; done.
Qed.

Lemma castString_defined (v : value) : v <> VUndefined -> castString v <> VUndefined.
Proof. destruct v; simpl; congruence. Qed.

Lemma find_castable id movie_id l d :
  List.find (matches (targetFilter id movie_id)) l = Some d ->
  castable MovieModel (targetFilter id movie_id) = true.
Proof.
  intros H. apply find_some in H as [_ H].
  destruct (castable MovieModel (targetFilter id movie_id)) eqn:E; [reflexivity|].
  now rewrite (uncastable_target _ _ d E) in H.
Qed.

(** A movie update (over the REST or the UI path, on a configured store,
    with an [id] or a [movie_id] supplied) whose [id] is not a well-formed
    ObjectId is answered with 500, and one that finds no record with 404;
    both change nothing.  One that finds a record replaces the first record
    that satisfies its filter, in place, by a record with the same
    identifier in which [movie_title] and [Released] have the values of the
    request, as strings (when the request gives them), and every other
    field, [movie_id] included, has the value it had (the [updatedAt]
    timestamp of the schema aside, which is not modelled); the answer
    carries this updated record. *)
Theorem update_outcome (r : Route) (req : Request) (s : Store) :
  r = PUT_api_movies \/ r = POST_ui_movie_update ->
  Movie <> None ->
  suppliesTarget r req = true ->
  let f := targetFilter (get (body_ req) "id") (get (body_ req) "movie_id") in
  (castable MovieModel f = false ->
   status (serve r req s).1 = 500%nat /\ movies (serve r req s).2 = movies s) /\
  (castable MovieModel f = true ->
   List.find (matches f) (movies s) = None ->
   status (serve r req s).1 = 404%nat /\ movies (serve r req s).2 = movies s) /\
  (forall d : Doc,
      List.find (matches f) (movies s) = Some d ->
      exists (pre post : list Doc) (d' : Doc),
        movies s = pre ++ d :: post /\
        Forall (fun x => matches f x = false) pre /\
        matches f d = true /\
        movies (serve r req s).2 = pre ++ d' :: post /\
        (serve r req s).1 = updatedResponse r d' /\
        _id d' = _id d /\
        (forall k : string,
            k <> "movie_title" -> k <> "Released" -> k <> "updatedAt" ->
            props d' !! k = props d !! k) /\
        (get (body_ req) "movie_title" <> VUndefined ->
         props d' !! "movie_title" = Some (castString (get (body_ req) "movie_title"))) /\
        (get (body_ req) "Released" <> VUndefined ->
         props d' !! "Released" = Some (castString (get (body_ req) "Released")))).
Proof.
  intros Hr HC Hs f. destruct Movie_cases as [HM|HM]; [contradiction|].
  assert (suppliesTarget r req =
          truthy (get (body_ req) "id") || truthy (get (body_ req) "movie_id")) as Hst
      by (destruct Hr as [-> | ->]; reflexivity).
  rewrite Hst in Hs. apply orb_true_iff in Hs.
  assert (negb (truthy (get (body_ req) "id")) &&
          negb (truthy (get (body_ req) "movie_id")) = false) as Hn
      by (destruct Hs as [-> | ->]; [reflexivity | apply andb_false_r]).
  split; [|split].
  - intros Hw. destruct Hr as [-> | ->]; run_route HM; rewrite Hn; proj; fold f;
      rewrite Hw; handled; split; reflexivity.
  - intros Hw Hf. destruct Hr as [-> | ->]; run_route HM; rewrite Hn; proj; fold f;
      rewrite Hw; proj; rewrite Hf, (updateFirst_no_match _ _ _ Hf);
      cbn [fmap option_fmap option_map]; handled; split; reflexivity.
  - intros d Hf.
    pose proof (find_castable _ _ _ _ Hf) as Hw. fold f in Hw.
    destruct (updateFirst_split f
                (fun d => {| _id := _id d;
                             props := assign
                               [("movie_title", castString (get (body_ req) "movie_title"));
                                ("Released", castString (get (body_ req) "Released"))]
                               (props d) |})
                (movies s) d Hf) as (pre & post & Hl & Hpre & Hd & Hu).
    destruct (assign_update (props d) (castString (get (body_ req) "movie_title"))
                (castString (get (body_ req) "Released"))) as (Hk & Ht & Hrel).
    exists pre, post,
      {| _id := _id d;
         props := assign [("movie_title", castString (get (body_ req) "movie_title"));
                          ("Released", castString (get (body_ req) "Released"))]
                         (props d) |}.
    split; [exact Hl|]. split; [exact Hpre|]. split; [exact Hd|].
    split; [|split; [|split; [reflexivity|split; [|split]]]].
    + destruct Hr as [-> | ->]; run_route HM; rewrite Hn; proj; fold f;
        rewrite Hw; proj; rewrite Hf; proj; exact Hu.
    + destruct Hr as [-> | ->]; run_route HM; rewrite Hn; proj; fold f;
        rewrite Hw; proj; rewrite Hf; reflexivity.
    + intros k H1 H2 _. now apply Hk.
    + intros H. apply Ht. now apply castString_defined.
    + intros H. apply Hrel. now apply castString_defined.
Qed.

(** ** Requests that name no target, or name it twice *)

(** On a configured store, an update or a delete of a movie that supplies
    neither an [id] nor a [movie_id] is answered with 400, "Provide id or
    movie_id", and a REST find that supplies neither [id], [movie_id] nor
    [title] with 400, "Provide id or movie_id or title"; in both cases
    before any store call: the store and its log are as they were. *)
Theorem missing_target_rejected (r : Route) (req : Request) (s : Store) :
  Movie <> None ->
  (target r req <> None -> suppliesTarget r req = false ->
   serve r req s =
   ({| status := 400%nat; body := JsonObject (errorBody (missingTarget (targetCheck r))) |},
    s)) /\
  (truthy (get (query_ req) "id") = false ->
   truthy (get (query_ req) "movie_id") = false ->
   truthy (get (query_ req) "title") = false ->
   serve GET_api_movies_find req s =
   ({| status := 400%nat;
       body := JsonObject (errorBody (httpError 512 "Provide id or movie_id or title" 400)) |},
    s)).
Proof.
  intros HC. destruct Movie_cases as [HM|HM]; [contradiction|]. split.
  - intros Ht Hs.
    assert (handler r req (initial s) = (Threw (missingTarget (targetCheck r)), initial s))
      as Hh.
    { destruct r; try (exfalso; apply Ht; reflexivity);
        unfold suppliesTarget in Hs; apply orb_false_iff in Hs as [Hi Hm];
        unfold handler, putMovies, deleteMovies, updateMovie, deleteMovie, ensureMovieConn;
        rewrite HM; unfold bind, ret; rewrite Hi, Hm; reflexivity. }
    rewrite (serve_threw _ _ _ _ _ Hh). reflexivity.
  - intros Hi Hm Ht.
    assert (handler GET_api_movies_find req (initial s) =
            (Threw (httpError 512 "Provide id or movie_id or title" 400), initial s)) as Hh.
    { unfold handler, findMovie, ensureMovieConn.
      rewrite HM; unfold bind, ret; rewrite Hi, Hm, Ht; reflexivity. }
    rewrite (serve_threw _ _ _ _ _ Hh). reflexivity.
Qed.

Lemma get_without (o : object) (k : string) :
  k <> "movie_id" -> k <> "title" ->
  get (delete "movie_id" (delete "title" o)) k = get o k.
Proof. intros H1 H2. unfold get. now rewrite !lookup_delete_ne. Qed.

(** When a request supplies an [id], the find, show, update and delete
    routes for movies go by it alone: the answer and the store afterwards
    are those of the same request without its [movie_id] and [title]. *)
Theorem id_precedence (r : Route) (req : Request) (s : Store) :
  truthy (suppliedId r req) = true ->
  serve r req s = serve r (without ["movie_id"; "title"] req) s.
Proof.
  intros Hid.
  destruct Movie_cases as [HM|HM]; destruct r; try discriminate Hid;
    unfold suppliedId in Hid;
    unfold_routes; rewrite ?HM; try reflexivity;
    unfold targetFilter, debugMode, without; cbn [query_ body_ params fold_right];
    rewrite ?(get_without _ "id"), ?(get_without _ "movie_title"),
      ?(get_without _ "Released"), ?(get_without _ "debug") by discriminate;
    cbv [bind ret]; rewrite ?Hid; reflexivity.
Qed.

(** ** What the answers carry *)

Lemma In_limited limit (p : Doc -> bool) l d :
  In d (limited limit (List.filter p l)) -> In d l /\ p d = true.
Proof.
  intros H. apply filter_In. destruct limit as [n|]; [|exact H].
  revert H. generalize (List.filter p l). intros l0. revert l0.
  induction n as [|n IH]; intros [|a l0]; simpl; try contradiction.
  intros [H|H]; [now left | right; now apply IH].
Qed.

Lemma updated_In f (g : Doc -> Doc) l d :
  g <$> List.find (matches f) l = Some d -> In d (updateFirst f g l).
Proof.
  induction l as [|a l IH]; simpl; [discriminate|].
  destruct (matches f a); simpl.
  - intros H. injection H as <-. now left.
  - intros H. right. now apply IH.
Qed.

(** Every record that a JSON answer carries (a list, a found record, a
    created or an updated one) is a record of the store as the request
    leaves it. *)
Theorem answers_carry_stored_records (r : Route) (req : Request) (s : Store) (d : Doc) :
  In d (records (body (serve r req s).1)) ->
  In d (employees (serve r req s).2) \/ In d (movies (serve r req s).2).
Proof.
  destruct Movie_cases as [HM|HM]; destruct r; run_route HM; stores; cases; handled;
    cbn [records stringify]; intros H; try contradiction;
    try (destruct H as [<- | []]);
    repeat match goal with
      | H : In _ (limited _ (List.filter _ _)) |- _ => apply In_limited in H as [H _]
      | H : List.find _ _ = Some _ |- _ => apply find_some in H as [H _]
      | H : _ <$> List.find _ _ = Some _ |- _ => apply updated_In in H
      end;
    first [ left; assumption | right; assumption
          | left; apply in_or_app; right; now left
          | right; apply in_or_app; right; now left ].
Qed.

Lemma truthy_notNull v : truthy v = true -> notNull v = true.
Proof. destruct v; simpl; congruence. Qed.

Lemma castString_notNull v : notNull v = true -> notNull (castString v) = true.
Proof. destruct v; simpl; congruence. Qed.

Lemma find_none_iff (p : Doc -> bool) l :
  List.find p l = None <-> existsb p l = false.
Proof.
  induction l as [|a l IH]; simpl; [tauto|].
  destruct (p a); simpl; [split; discriminate|exact IH].
Qed.

(** The answer of [GET /api/movies/find] on a configured store, with an
    [id], a [movie_id] or a [title] supplied. *)
Lemma serve_find (q : Request) (s : Store) :
  Movie = Some MovieModel ->
  truthy (get (query_ q) "id") || truthy (get (query_ q) "movie_id")
  || truthy (get (query_ q) "title") = true ->
  (serve GET_api_movies_find q s).1 =
  match castQuery MovieModel (findFilter q) with
  | Some f =>
      match List.find (matches f) (movies s) with
      | Some d => {| status := 200%nat; body := JsonDoc d |}
      | None => {| status := 404%nat;
                   body := JsonObject (errorBody (notFound (findMiss q))) |}
      end
  | None =>
      {| status := 500%nat;
         body := JsonObject (errorBody (runtimeError 497
                   (StoreFailed (CallFindById MovieModel (get (query_ q) "id"))))) |}
  end.
Proof.
  intros HM Hsome. unfold findFilter, findMiss.
  destruct (truthy (get (query_ q) "id")) eqn:Hi;
    [|destruct (truthy (get (query_ q) "movie_id")) eqn:Hm;
      [|destruct (truthy (get (query_ q) "title")) eqn:Ht; [|discriminate Hsome]]];
    run_route HM; rewrite ?Hi, ?Hm, ?Ht;
    cbv [bind onModel findById findOne initial withStore];
    rewrite ?castQuery_QId, ?castQuery_movieIdFilter, ?castQuery_title; proj;
    try destruct (castObjectId (get (query_ q) "id")); proj;
    try destruct (List.find _ (movies s));
    cbv [res_json res_end throw]; proj; handled; reflexivity.
Qed.

(** [GET /api/movies/find] on a configured store, with an [id], a [movie_id]
    or a [title] supplied, and a filter that can be cast to the schema
    (the [id], if any, is a well-formed ObjectId): the answer is 404
    exactly when no record satisfies the filter of the request, and
    otherwise 200 with the first record of the store that satisfies it.  A
    record found by [id] has the ObjectId that the [id] casts to as its
    identifier; a record found by title has the title of the request, as a
    string, as its [movie_title], or the title of the request as its
    (legacy) [title].  When the filter cannot be cast the answer is 500. *)
Theorem find_returns_match (req : Request) (s : Store) :
  let id := get (query_ req) "id" in
  let movie_id := get (query_ req) "movie_id" in
  let title := get (query_ req) "title" in
  Movie <> None ->
  truthy id || truthy movie_id || truthy title = true ->
  (forall f : query,
      castQuery MovieModel (findFilter req) = Some f ->
      (status (serve GET_api_movies_find req s).1 = 404%nat <->
       existsb (matches f) (movies s) = false) /\
      (forall d : Doc,
          List.find (matches f) (movies s) = Some d ->
          (serve GET_api_movies_find req s).1 = {| status := 200%nat; body := JsonDoc d |} /\
          (truthy id = true -> castObjectId id = Some (_id d)) /\
          (truthy id = false -> truthy movie_id = false ->
           props d !! "movie_title" = Some (castString title) \/
           props d !! "title" = Some title))) /\
  (castQuery MovieModel (findFilter req) = None ->
   truthy id = true /\ wellFormedId id = false /\
   status (serve GET_api_movies_find req s).1 = 500%nat).
Proof.
  intros id movie_id title HC Hsome. subst id movie_id title.
  destruct Movie_cases as [HM|HM]; [contradiction|].
  pose proof (serve_find req s HM Hsome) as Hserve.
  split.
  - intros f Hf. rewrite Hf in Hserve. split.
    + rewrite <- find_none_iff, Hserve.
      destruct (List.find (matches f) (movies s)); split; intros H;
        first [reflexivity | discriminate H].
    + intros d Hd. rewrite Hd in Hserve. split; [exact Hserve|].
      apply find_some in Hd as [_ Hd]. unfold findFilter in Hf. split.
      * intros Hi. rewrite Hi, castQuery_QId in Hf.
        destruct (castObjectId (get (query_ req) "id")) eqn:Hc; [|discriminate Hf].
        injection Hf as <-. apply matches_QId in Hd. congruence.
      * intros Hi Hm. rewrite Hi, Hm, castQuery_title in Hf. injection Hf as <-.
        rewrite Hi, Hm in Hsome. cbn [orb] in Hsome.
        pose proof (truthy_notNull _ Hsome) as Hn.
        simpl in Hd. rewrite orb_false_r in Hd. apply orb_true_iff in Hd.
        destruct Hd as [Hd|Hd]; [left|right].
        -- now apply (fieldEq_notNull _ _ (castString_notNull _ Hn)).
        -- now apply (fieldEq_notNull _ _ Hn).
  - intros Hf. rewrite Hf in Hserve. unfold findFilter, wellFormedId in *.
    destruct (truthy (get (query_ req) "id")).
    + rewrite castQuery_QId in Hf.
      destruct (castObjectId (get (query_ req) "id")); [discriminate Hf|].
      split; [reflexivity|]. split; [reflexivity|]. now rewrite Hserve.
    + destruct (truthy (get (query_ req) "movie_id"));
        [rewrite castQuery_movieIdFilter in Hf | rewrite castQuery_title in Hf];
        discriminate Hf.
Qed.

(** ** The REST and the UI paths of an update and of a delete *)

(** An update sent to [PUT /api/movies] and the same body sent to
    [POST /ui/movie/update] leave the same store (collections and calls) and
    have the same status; when it is an error, the two answers differ at
    most in the stack, so that in production mode, where no stack is sent,
    the whole answer is the same.  A delete sent to [DELETE /api/movies]
    with a query and one sent to [POST /ui/movie/delete] with that query as
    its body leave the same store; the first answers 200 exactly when the
    second answers 302, and an error is answered in the same way by both,
    up to the stack. *)
Theorem ui_rest_agree (req req' : Request) (s : Store) :
  ((serve PUT_api_movies req s).2 = (serve POST_ui_movie_update req s).2 /\
   status (serve PUT_api_movies req s).1 = status (serve POST_ui_movie_update req s).1 /\
   ((400 <= status (serve PUT_api_movies req s).1)%nat ->
    withoutStack (body (serve PUT_api_movies req s).1) =
    withoutStack (body (serve POST_ui_movie_update req s).1) /\
    (NODE_ENV process_env = VStr "production" ->
     (serve PUT_api_movies req s).1 = (serve POST_ui_movie_update req s).1))) /\
  (query_ req = body_ req' ->
   (serve DELETE_api_movies req s).2 = (serve POST_ui_movie_delete req' s).2 /\
   (status (serve DELETE_api_movies req s).1 = 200%nat <->
    status (serve POST_ui_movie_delete req' s).1 = 302%nat) /\
   ((400 <= status (serve DELETE_api_movies req s).1)%nat ->
    withoutStack (body (serve DELETE_api_movies req s).1) =
    withoutStack (body (serve POST_ui_movie_delete req' s).1) /\
    (NODE_ENV process_env = VStr "production" ->
     (serve DELETE_api_movies req s).1 = (serve POST_ui_movie_delete req' s).1))).
Proof.
  assert (forall e1 e2 : Err,
            err_message e1 = err_message e2 -> err_status e1 = err_status e2 ->
            err_details e1 = err_details e2 ->
            withoutStack (JsonObject (errorBody e1)) =
            withoutStack (JsonObject (errorBody e2)) /\
            (NODE_ENV process_env = VStr "production" -> errorBody e1 = errorBody e2))
    as Hbody.
  { intros e1 e2 H1 H2 H3. unfold errorBody, statusOf, messageOf, isDev.
    rewrite H1, H2, H3. split.
    - destruct (err_details e2), (negb _); reflexivity.
    - intros Hp. rewrite bool_decide_eq_true_2 by exact Hp. reflexivity. }
  split.
  - destruct Movie_cases as [HM|HM]; run_route HM; stores; cases; handled;
      (split; [reflexivity|]); (split; [reflexivity|]);
      intros H; try (simpl in H; lia); try (split; [reflexivity | intros _; reflexivity]);
      match goal with
      | |- withoutStack (JsonObject (errorBody ?e1)) =
           withoutStack (JsonObject (errorBody ?e2)) /\ _ =>
          destruct (Hbody e1 e2 eq_refl eq_refl eq_refl) as [Hw Hp]
      end;
      (split; [exact Hw | intros Hprod; now rewrite (Hp Hprod)]).
  - intros Hq. destruct Movie_cases as [HM|HM]; run_route HM; rewrite ?Hq; stores; cases;
      handled;
      (split; [reflexivity|]);
      (split; [simpl; split; intros H; first [reflexivity | discriminate H]|]);
      intros H; try (simpl in H; lia); try (split; [reflexivity | intros _; reflexivity]);
      match goal with
      | |- withoutStack (JsonObject (errorBody ?e1)) =
           withoutStack (JsonObject (errorBody ?e2)) /\ _ =>
          destruct (Hbody e1 e2 eq_refl eq_refl eq_refl) as [Hw Hp]
      end;
      (split; [exact Hw | intros Hprod; now rewrite (Hp Hprod)]).
Qed.

(** ** Creating, then finding; deleting, then finding *)

Lemma find_app_last (p : Doc -> bool) l d :
  Forall (fun x => p x = false) l -> p d = true -> List.find p (l ++ [d]) = Some d.
Proof.
  intros Hl Hd. induction Hl as [|a l Ha Hl IH]; simpl.
  - now rewrite Hd.
  - now rewrite Ha.
Qed.

Lemma find_app_some (p : Doc -> bool) l d :
  p d = true -> exists d', List.find p (l ++ [d]) = Some d' /\ p d' = true.
Proof.
  intros Hd. induction l as [|a l IH]; simpl.
  - rewrite Hd. eauto.
  - destruct (p a) eqn:Ha; eauto.
Qed.

Lemma created_movie_id (req : Request) (s : Store) :
  get (body_ req) "movie_id" <> VUndefined ->
  props (createdMovie req s) !! "movie_id" = Some (get (body_ req) "movie_id").
Proof.
  intros Hm. unfold createdMovie. cbn [props].
  rewrite (movie_chains_keep req "movie_id") by discriminate.
  unfold assign. simpl.
  destruct (decide (get (body_ req) "movie_id" = VUndefined)); [contradiction|].
  repeat destruct (decide _); simplify_map_eq; done.
Qed.

(** After [POST /api/movies] has created a record (configured store,
    validation passed), which holds [movie_title] and [Released] as
    strings, [GET /api/movies/find] finds it: by its identifier, provided
    the identifier the driver gave it is not empty, casts to itself and is
    the identifier of no other record; and a find by the [movie_id] of the
    request is answered with 200 and a record that satisfies the flexible
    filter (the created record itself when no older record satisfies it). *)
Theorem create_then_find (req q : Request) (s : Store) :
  Movie <> None ->
  validationResult (runChains movieChains req) = [] ->
  let d := createdMovie req s in
  let s1 := (serve POST_api_movies req s).2 in
  (serve POST_api_movies req s).1 = {| status := 201%nat; body := JsonDoc d |} /\
  movies s1 = movies s ++ [d] /\
  (get (query_ q) "id" = VStr (_id d) ->
   _id d <> "" ->
   castObjectId (VStr (_id d)) = Some (_id d) ->
   Forall (fun x => _id x <> _id d) (movies s) ->
   (serve GET_api_movies_find q s1).1 = {| status := 200%nat; body := JsonDoc d |}) /\
  (truthy (get (query_ q) "id") = false ->
   truthy (get (body_ req) "movie_id") = true ->
   get (query_ q) "movie_id" = get (body_ req) "movie_id" ->
   exists d' : Doc,
     (serve GET_api_movies_find q s1).1 = {| status := 200%nat; body := JsonDoc d' |} /\
     matches (movieIdFilter (get (body_ req) "movie_id")) d' = true /\
     (existsb (matches (movieIdFilter (get (body_ req) "movie_id"))) (movies s) = false ->
      d' = d)).
Proof.
  intros HC Hv d s1. destruct Movie_cases as [HM|HM]; [contradiction|].
  assert ((serve POST_api_movies req s).1 = {| status := 201%nat; body := JsonDoc d |}
          /\ movies s1 = movies s ++ [d]) as [Hr Hs1].
  { subst s1 d. unfold createdMovie.
    split; run HM; rewrite Hv, bool_decide_eq_true_2 by reflexivity; reflexivity. }
  pose proof (created_movie_id req s) as Hmid. fold d in Hmid.
  clearbody d s1.
  split; [exact Hr|]. split; [exact Hs1|]. split.
  - intros Hq Hne Hcast Hfresh.
    assert (truthy (get (query_ q) "id") = true) as Hi.
    { rewrite Hq. simpl. destruct (String.eqb_spec (_id d) ""); [contradiction|reflexivity]. }
    rewrite serve_find by (try exact HM; now rewrite Hi).
    unfold findFilter. rewrite Hi, Hq, castQuery_QId, Hcast, Hs1.
    rewrite (find_app_last _ _ d); [reflexivity| |].
    + eapply Forall_impl; [exact Hfresh|]. intros x Hx.
      apply not_true_is_false. intros Hmx. apply matches_QId in Hmx. congruence.
    + now apply matches_QId.
  - intros Hi Hm Hq.
    assert (matches (movieIdFilter (get (body_ req) "movie_id")) d = true) as Hd.
    { rewrite matches_movieIdFilter. apply orb_true_iff. right. simpl.
      apply fieldEq_notNull; [now apply truthy_notNull|].
      apply Hmid. intros E. rewrite E in Hm. discriminate. }
    rewrite serve_find by (try exact HM; now rewrite Hi, Hq, Hm).
    unfold findFilter. rewrite Hi, Hq, Hm, castQuery_movieIdFilter, Hs1.
    destruct (find_app_some (matches (movieIdFilter (get (body_ req) "movie_id")))
                (movies s) d Hd) as (d' & Hf & Hd').
    exists d'. rewrite Hf. split; [reflexivity|]. split; [exact Hd'|].
    intros Hno. rewrite find_app_last in Hf; [congruence| |exact Hd].
    clear -Hno. induction (movies s) as [|a l IH]; [constructor|].
    simpl in Hno. apply orb_false_iff in Hno as [Ha Hl]. constructor; auto.
Qed.

Lemma removeFirst_id_gone (id : value) (l : list Doc) :
  NoDup (map _id l) ->
  List.find (matches (QId id)) (removeFirst (QId id) l) = None.
Proof.
  intros Hnd. induction l as [|a l IH]; [reflexivity|].
  apply NoDup_cons in Hnd as [Ha Hnd]. cbn [removeFirst].
  destruct (matches (QId id) a) eqn:Hm.
  - apply find_none_iff. apply not_true_is_false. intros He.
    apply existsb_exists in He as (x & Hx & Hmx).
    apply matches_QId in Hm. apply matches_QId in Hmx.
    apply Ha. assert (_id a = _id x) as -> by congruence.
    apply list_elem_of_In. now apply in_map.
  - cbn [List.find]. rewrite Hm. now apply IH.
Qed.

(** After [DELETE /api/movies] by an [id] that is a well-formed ObjectId, on
    a configured store whose records have distinct identifiers, no record
    has that identifier any more: a find by the same [id] is answered with
    404, whether the delete found the record or not. *)
Theorem delete_then_gone (req q : Request) (s : Store) :
  Movie <> None ->
  NoDup (map _id (movies s)) ->
  truthy (get (query_ req) "id") = true ->
  wellFormedId (get (query_ req) "id") = true ->
  get (query_ q) "id" = get (query_ req) "id" ->
  status (serve GET_api_movies_find q (serve DELETE_api_movies req s).2).1 = 404%nat.
Proof.
  intros HC Hnd Hi Hw Hq. destruct Movie_cases as [HM|HM]; [contradiction|].
  rewrite serve_find by (try exact HM; now rewrite Hq, Hi).
  unfold findFilter. rewrite Hq, Hi, castQuery_QId.
  unfold wellFormedId in Hw.
  destruct (castObjectId (get (query_ req) "id")) eqn:Hc; [|discriminate Hw].
  assert (movies (serve DELETE_api_movies req s).2 =
          removeFirst (QId (get (query_ req) "id")) (movies s)) as ->.
  { run HM. rewrite Hi. rewrite castable_targetFilter, Hi.
    unfold wellFormedId, targetFilter. rewrite Hc, Hi. cbn [negb andb]. proj.
    cases; reflexivity. }
  now rewrite removeFirst_id_gone.
Qed.

(** ** The employee update route *)



(** ** Creating an employee *)


(** ** The home page *)

Lemma pick_notNull (obj : object) (names : list string) (fb : value) :
  notNull fb = true -> notNull (pick obj names fb) = true.
Proof.
  intros Hfb. unfold pick.
  destruct (findName obj names) as [n|] eqn:E; [|exact Hfb].
  destruct (truthy (VStr n)); [|exact Hfb].
  unfold findName in E. apply find_some in E as [_ E]. exact E.
Qed.

(** The home page, on a configured store, shows the views of the first 50
    movies of the store, in the order of the store and under their
    identifiers; no attribute of a view is null or undefined.  The raw
    sample is handed to the view only when the query has [debug=1], and is
    then the first movie of the store. *)
Theorem home_views (req : Request) (s : Store) :
  Movie <> None ->
  exists (views : list MovieView) (sample : option Doc),
    (serve GET_home req s).1 =
    {| status := 200%nat;
       body := Render "index" (IndexLocals views (debugMode req) sample) |} /\
    views = map normalize (firstn 50 (movies s)) /\
    map view_id views = firstn 50 (map _id (movies s)) /\
    (length views <= 50)%nat /\
    Forall (fun v => notNull (movie_title v) = true /\
                     notNull (movie_id v) = true /\
                     notNull (Released v) = true) views /\
    (get (query_ req) "debug" <> VStr "1" -> sample = None) /\
    (get (query_ req) "debug" = VStr "1" -> sample = head (movies s)).
Proof.
  intros HC. destruct Movie_cases as [HM|HM]; [contradiction|].
  eexists. eexists. split; [|split; [|split; [|split; [|split; [|split]]]]].
  - run HM. cbn [collection logCall movies limited]. rewrite filter_all. reflexivity.
  - reflexivity.
  - rewrite map_map. cbn [normalize view_id]. now rewrite firstn_map.
  - rewrite length_map. apply firstn_le_length.
  - apply Forall_forall. intros v Hv. apply list_elem_of_In, in_map_iff in Hv as (d & <- & _).
    cbn [normalize movie_title movie_id Released].
    repeat split; apply pick_notNull; reflexivity.
  - intros Hd. unfold debugMode. now rewrite bool_decide_eq_false_2.
  - intros Hd. unfold debugMode. rewrite bool_decide_eq_true_2 by exact Hd.
    destruct (movies s); reflexivity.
Qed.

(** ** The two revisions of the normalizer, and numeric identifiers *)

(** Case analysis on the presence of each alias, in the order of the
    scan. *)
Ltac settle :=
  repeat first
    [ progress cbn [orb truthy String.eqb Ascii.eqb Bool.eqb negb andb]
    | match goal with
      | H : notNull (get _ _) = _ |- _ => rewrite H
      end ].

Ltac analyse :=
  repeat (match goal with
          | |- context [notNull (get ?o ?n)] => destruct (notNull (get o n)) eqn:?
          end;
          settle; try reflexivity).

(** The first revision of the home page computes each attribute, with its
    chain of [??], as [pick] does over the aliases of the chain and the
    fallback [''].  The current revision agrees with it on the external id
    and on the release info of every record in which one of the old aliases
    is present, and on the title of every such record that has no [Title]
    and no [Name]. *)
Theorem normalize_extends_v1 (d : Doc) :
  let o := props d in
  let present names := existsb (fun n => notNull (get o n)) names in
  (movie_title (normalize_v1 d) =
     pick o ["movie_title"; "title"; "name"; "MovieTitle"] (VStr "") /\
   movie_id (normalize_v1 d) =
     pick o ["movie_id"; "movieId"; "movieid"; "MovieID"] (VStr "") /\
   Released (normalize_v1 d) =
     pick o ["Released"; "released"; "release_year"; "releaseYear"; "year"] (VStr "")) /\
  (present ["movie_id"; "movieId"; "movieid"; "MovieID"] = true ->
   movie_id (normalize d) = movie_id (normalize_v1 d)) /\
  (present ["Released"; "released"; "release_year"; "releaseYear"; "year"] = true ->
   Released (normalize d) = Released (normalize_v1 d)) /\
  (present ["movie_title"; "title"; "name"; "MovieTitle"] = true ->
   notNull (get o "Title") = false -> notNull (get o "Name") = false ->
   movie_title (normalize d) = movie_title (normalize_v1 d)).
Proof.
  intros o present. subst present o.
  unfold normalize, normalize_v1, pick, findName, coalesce, titleNames, idNames,
    releasedNames.
  cbn [movie_title movie_id Released List.find existsb].
  split; [|split; [|split]].
  - repeat split; analyse.
  - intros H. revert H. analyse; discriminate.
  - intros H. revert H. analyse; discriminate.
  - intros H HT HN. rewrite HT, HN. revert H. analyse; discriminate.
Qed.

(** An identifier supplied as a number (a JSON body with [movie_id: 42])
    selects exactly the records that store that number: the string branch of
    the flexible filter compares with the number again, so that a record
    that stores the identifier as a string is not selected. *)
Theorem numeric_id_selects_numbers (z : Z) (d : Doc) :
  (matches (movieIdFilter (VNum z)) d = true <-> props d !! "movie_id" = Some (VNum z)) /\
  (forall t : string,
      props d !! "movie_id" = Some (VStr t) -> matches (movieIdFilter (VNum z)) d = false).
Proof.
  assert (matches (movieIdFilter (VNum z)) d = true <-> props d !! "movie_id" = Some (VNum z))
    as Hiff.
  { rewrite matches_movieIdFilter, orb_true_iff, matches_number. cbn [Number matches].
    rewrite fieldEq_notNull by reflexivity. split.
    - intros [(z' & Hz & H)|H]; [injection Hz as <-|]; exact H.
    - intros H. now right. }
  split; [exact Hiff|].
  intros t Ht. apply not_true_is_false. intros H. apply Hiff in H. congruence.
Qed.

End App.

(** ** Examples

    The application with the instances for the examples. *)
Abbreviation app env :=
  (serve decimalToNumber numberText hexObjectId countingObjectId lineStack failureText env).

Example numericString_examples :
  numericString "50000" = true /\ numericString "-12.50" = true /\
  numericString "+.5" = true /\ numericString "5." = false /\
  numericString "1e3" = false /\ numericString "" = false /\
  numericString "12a" = false /\ numericString "1e+21" = false.
Proof. repeat split; reflexivity. Qed.

Example trim_examples :
  trim "  Bob " = "Bob" /\ trim "   " = "" /\ trim "a b" = "a b" /\
  trim nbsp = "" /\ trim (nbsp ++ "Bob" ++ nbsp)%string = "Bob".
Proof. repeat split; reflexivity. Qed.

Example decimalToNumber_examples :
  decimalToNumber "42" = Num 42 /\ decimalToNumber "" = Num 0 /\
  decimalToNumber "tt42" = NaN.
Proof. repeat split; reflexivity. Qed.

Example numberText_examples :
  numberText 50000 = "50000" /\ numberText (-42) = "-42" /\
  numberText (10 ^ 21 - 1) = "999999999999999999999" /\
  numberText (10 ^ 21) = "1e+21" /\ numberText (15 * 10 ^ 21) = "1.5e+22".
Proof. repeat split; reflexivity. Qed.

Example hexObjectId_examples :
  hexObjectId (VStr "64B7F0A2C3D4E5F6012345E1") = Some "64b7f0a2c3d4e5f6012345e1" /\
  hexObjectId (VStr "abc") = None.
Proof. split; reflexivity. Qed.

Example casting_examples :
  castString numberText (VNum 1985) = VStr "1985" /\
  castString numberText (VBool true) = VStr "true" /\
  castString numberText VNull = VNull /\
  castNumber decimalToNumber (VStr "30") = Some (VNum 30) /\
  castNumber decimalToNumber (VStr "") = Some VNull /\
  castNumber decimalToNumber (VStr "abc") = None /\
  castNumber decimalToNumber (VBool true) = Some (VNum 1) /\
  newDocument decimalToNumber numberText EmployeeModel
    [("name", VStr ""); ("salary", VNum 1); ("age", VNum 2)] = None /\
  newDocument decimalToNumber numberText EmployeeModel
    [("name", VStr "Eve"); ("salary", VNum 1)] = None /\
  newDocument decimalToNumber numberText EmployeeModel
    [("name", VStr "Eve"); ("salary", VStr "1"); ("age", VNum 2); ("team", VStr "x")] =
  Some {["name" := VStr "Eve"; "salary" := VNum 1; "age" := VNum 2]} /\
  newDocument decimalToNumber numberText MovieModel [("title", VStr "Alien")] =
  Some {["title" := VStr "Alien"]}.
Proof. repeat split; reflexivity. Qed.

Example pick_examples :
  pick {["Title" := VStr "Ran"; "title" := VNull]} titleNames (VStr "(no title)") = VStr "Ran" /\
  pick {["year" := VNum 0; "Year" := VNum 1985]} releasedNames (VStr "") = VNum 0 /\
  pick {["plot" := VStr "..."]} idNames (VStr "") = VStr "".
Proof. repeat split; reflexivity. Qed.

Lemma normalize_first_alias_example :
  movie_title (normalize alien) = VStr "Alien" /\
  Released (normalize alien) = VNum 1979.
Proof.
  pose proof (normalize_first_alias alien) as (_ & _ & _ & H & _).
  apply (H (VStr "Alien") (VNum 1979)); reflexivity.
Defined.

Lemma movieIdFilter_number_or_string_example :
  matches hexObjectId (movieIdFilter decimalToNumber (VStr "42")) legacyNumber = true /\
  matches hexObjectId (movieIdFilter decimalToNumber (VStr "42")) legacyString = true /\
  matches hexObjectId (QNumber "movie_id" (Number decimalToNumber (VStr "tt42")))
          legacyNumber = false /\
  matches hexObjectId (movieIdFilter decimalToNumber (VStr "tt42"))
          {| _id := "64b7f0a2c3d4e5f601234504"; props := {["movie_id" := VStr "tt42"]} |} = true.
Proof.
  destruct (movieIdFilter_number_or_string decimalToNumber hexObjectId) as (H1 & H2 & H3).
  split; [apply H2; [reflexivity | left; reflexivity]|].
  split; [apply H2; [reflexivity | right; reflexivity]|].
  destruct (H3 (VStr "tt42") eq_refl) as [_ H4].
  split; [apply H4|].
  apply (H4 {| _id := "64b7f0a2c3d4e5f601234504"; props := {["movie_id" := VStr "tt42"]} |});
    reflexivity.
Defined.

Example errorHandler_production :
  (app production Unknown (request "GET" "/nowhere" ∅ ∅ ∅) emptyStore).1 =
  {| status := 404%nat;
     body := JsonObject [("error", PBool true); ("status", PNumber 404);
                         ("message", PString "Route not found: GET /nowhere")] |}.
Proof. reflexivity. Qed.

Lemma errorHandler_body_example :
  status (res (errorHandler configured (httpError lineStack 442 "Not found" 404)
                 (initial emptyStore)).2)
    = 404%nat.
Proof.
  destruct (errorHandler_body decimalToNumber numberText hexObjectId countingObjectId
              lineStack failureText configured
              (httpError lineStack 442 "Not found" 404) (initial emptyStore))
    as ((code & message & Hs & _ & Hc & _) & _).
  rewrite Hs. apply Hc; [reflexivity | lia].
Defined.

Lemma movie_routes_unavailable_example :
  status (app unconfigured GET_api_movies (request "GET" "/api/movies" ∅ ∅ ∅) legacyStore).1
    = 503%nat /\
  calls (app unconfigured GET_api_movies (request "GET" "/api/movies" ∅ ∅ ∅) legacyStore).2
    = [].
Proof.
  destruct (movie_routes_unavailable decimalToNumber numberText hexObjectId
              countingObjectId lineStack failureText unconfigured
              GET_api_movies (request "GET" "/api/movies" ∅ ∅ ∅) legacyStore eq_refl)
    as [H _].
  destruct (H eq_refl) as (H1 & _ & H3).
  split; [now rewrite H1 | exact H3].
Defined.

Lemma list_limits_example :
  (app configured GET_api_movies (request "GET" "/api/movies" ∅ ∅ ∅) legacyStore).1 =
  {| status := 200%nat; body := JsonDocs [legacyNumber; legacyString] |}.
Proof.
  destruct (list_limits decimalToNumber numberText hexObjectId countingObjectId
              lineStack failureText configured
              (request "GET" "/api/movies" ∅ ∅ ∅) legacyStore) as (_ & H & _).
  apply H. discriminate.
Defined.

(** An update addressed by [movie_id] "42" when the two legacy records are
    stored: the first one is updated, the second one is left as it is. *)
Lemma movie_write_first_match_example :
  let req := request "PUT" "/api/movies" ∅ ∅
               {["movie_id" := VStr "42"; "movie_title" := VStr "Heat (1995)"]} in
  let s' := (app configured PUT_api_movies req legacyStore).2 in
  firstMatchOnly hexObjectId (movieIdFilter decimalToNumber (VStr "42"))
                 [legacyNumber; legacyString] (movies s') /\
  employees s' = employees legacyStore /\
  movies s' =
  [ {| _id := "64b7f0a2c3d4e5f601234501";
       props := {["movie_id" := VNum 42; "movie_title" := VStr "Heat (1995)"]} |};
    legacyString ].
Proof.
  intros req s'.
  destruct (movie_write_first_match decimalToNumber numberText hexObjectId
              countingObjectId lineStack failureText configured
              PUT_api_movies req legacyStore) as (_ & H & _).
  destruct (H (movieIdFilter decimalToNumber (VStr "42")) eq_refl) as [H1 H2].
  split; [exact H1|]. split; [exact H2|]. reflexivity.
Defined.

(** A delete by a well-formed identifier that no employee has, and a delete
    by a [movie_id] that no movie has. *)
Lemma delete_missing_target_example :
  status (app configured DELETE_api_employees_id deleteNobody legacyStore).1 = 404%nat /\
  status (app configured DELETE_api_movies deleteSeven legacyStore).1 = 404%nat.
Proof.
  split.
  - destruct (delete_missing_target decimalToNumber numberText hexObjectId
                countingObjectId lineStack failureText configured
                deleteNobody legacyStore) as [H _].
    destruct (H eq_refl) as [H1 _]. apply H1. reflexivity.
  - destruct (delete_missing_target decimalToNumber numberText hexObjectId
                countingObjectId lineStack failureText configured
                deleteSeven legacyStore) as (_ & H & _).
    destruct (H DELETE_api_movies (movieIdFilter decimalToNumber (VStr "7"))
                (or_introl eq_refl) eq_refl eq_refl) as (H1 & _).
    apply H1; [discriminate | reflexivity | reflexivity].
Defined.

(** C7, as stated, fails when the movies store is not configured: a movie
    delete whose [movie_id] matches no record is answered with 503, not with
    404.  It also fails for an identifier that is not a well-formed
    ObjectId: no employee has the identifier ["abc"], and the delete is
    answered with 500. *)
Lemma delete_missing_other_status :
  (existsb (matches hexObjectId (movieIdFilter decimalToNumber (VStr "7")))
           (movies legacyStore) = false /\
   status (app unconfigured DELETE_api_movies deleteSeven legacyStore).1 = 503%nat /\
   status (app unconfigured DELETE_api_movies deleteSeven legacyStore).1 <> 404%nat) /\
  (existsb (matches hexObjectId (QId (VStr "abc"))) (employees legacyStore) = false /\
   status (app configured DELETE_api_employees_id deleteAbc legacyStore).1 = 500%nat /\
   status (app configured DELETE_api_employees_id deleteAbc legacyStore).1 <> 404%nat).
Proof.
  split; (split; [reflexivity|]); (split; [reflexivity | discriminate]).
Qed.

Lemma show_missing_movie_example :
  (app configured GET_ui_movie_show (request "GET" "/ui/movie/show" ∅ ∅ ∅) legacyStore).1 =
  {| status := 200%nat; body := Render "movie-view" (MovieLocals None (Some false)) |} /\
  (app configured GET_ui_movie_show
       (request "GET" "/ui/movie/show?movie_id=7" ∅ {["movie_id" := VStr "7"]} ∅)
       legacyStore).1 =
  {| status := 200%nat; body := Render "movie-view" (MovieLocals None (Some false)) |} /\
  (app configured GET_ui_movie_show
       (request "GET" "/ui/movie/show?id=64b7f0a2c3d4e5f601234509" ∅
          {["id" := VStr "64b7f0a2c3d4e5f601234509"]} ∅)
       legacyStore).1 =
  {| status := 200%nat; body := Render "movie-view" (MovieLocals None (Some false)) |}.
Proof.
  split; [|split].
  - destruct (show_missing_movie decimalToNumber numberText hexObjectId
                countingObjectId lineStack failureText configured
                (request "GET" "/ui/movie/show" ∅ ∅ ∅) legacyStore) as [H _].
    apply H; [discriminate | left; split; reflexivity].
  - destruct (show_missing_movie decimalToNumber numberText hexObjectId
                countingObjectId lineStack failureText configured
                (request "GET" "/ui/movie/show?movie_id=7" ∅ {["movie_id" := VStr "7"]} ∅)
                legacyStore) as [H _].
    apply H; [discriminate | right; right; repeat split; reflexivity].
  - destruct (show_missing_movie decimalToNumber numberText hexObjectId
                countingObjectId lineStack failureText configured
                (request "GET" "/ui/movie/show?id=64b7f0a2c3d4e5f601234509" ∅
                   {["id" := VStr "64b7f0a2c3d4e5f601234509"]} ∅)
                legacyStore) as [H _].
    apply H; [discriminate | right; left; repeat split; reflexivity].
Defined.

(** C9, as stated, fails when the movies store is not configured: a request
    without [id] and [movie_id] is answered with 503, not with 200 and the
    movie view.  It also fails for an [id] that is not a well-formed
    ObjectId: no movie has the identifier ["abc"], and the request is
    answered with 500. *)
Lemma show_other_status :
  ((app unconfigured GET_ui_movie_show (request "GET" "/ui/movie/show" ∅ ∅ ∅)
        legacyStore).1 =
   {| status := 503%nat; body := unavailableBody |} /\
   status (app unconfigured GET_ui_movie_show (request "GET" "/ui/movie/show" ∅ ∅ ∅)
               legacyStore).1 <> 200%nat) /\
  (List.find (matches hexObjectId (QId (VStr "abc"))) (movies legacyStore) = None /\
   status (app configured GET_ui_movie_show showAbc legacyStore).1 = 500%nat /\
   status (app configured GET_ui_movie_show showAbc legacyStore).1 <> 200%nat).
Proof.
  split; [split; [reflexivity | discriminate]|].
  split; [reflexivity|]. split; [reflexivity | discriminate].
Qed.


(** C6 at a request without [movie_title], on a configured and empty movies
    store: the chain of the REST path reports the missing field and
    [POST /api/movies] answers 400 and creates nothing, while
    [POST /ui/movie/new] creates a record without title and redirects. *)
Theorem ui_create_skips_validation :
  let req := request "POST" "/ui/movie/new" ∅ ∅ {["Released" := VStr "1999"]} in
  validationResult (runChains numberText movieChains req) =
    [mkFieldError "movie_title" "movie_title is required" (VStr "")] /\
  status (app configured POST_api_movies req emptyStore).1 = 400%nat /\
  movies (app configured POST_api_movies req emptyStore).2 = [] /\
  (app configured POST_ui_movie_new req emptyStore).1
    = {| status := 302%nat; body := Redirect "/" |} /\
  movies (app configured POST_ui_movie_new req emptyStore).2
    = [ {| _id := "000000000000000000000000"; props := {["Released" := VStr "1999"]} |} ].
Proof. intros req. repeat split; reflexivity. Qed.

(** ** Examples for the further properties *)


Lemma errors_change_nothing_example :
  movies (app configured DELETE_api_movies deleteSeven legacyStore).2 =
  [legacyNumber; legacyString].
Proof.
  destruct (errors_change_nothing decimalToNumber numberText hexObjectId
              countingObjectId lineStack failureText configured
              DELETE_api_movies deleteSeven legacyStore) as [_ H].
  - vm_compute. lia.
  - exact H.
Defined.

Lemma store_calls_example :
  exists l : list StoreCall,
    calls (app configured POST_api_employees hireBob legacyStore).2 = [] ++ l /\
    (length l <= 2)%nat.
Proof.
  destruct (store_calls decimalToNumber numberText hexObjectId countingObjectId
              lineStack failureText configured
              POST_api_employees hireBob legacyStore) as (l & H1 & H2 & _).
  exists l. split; [exact H1 | exact H2].
Defined.

(** A delete by the identifier of a stored employee, written in upper case,
    removes the employee; a delete by [movie_id] "42" removes the first of
    the two legacy records. *)
Lemma delete_outcome_example :
  ((status (app configured DELETE_api_employees_id deleteAnn legacyStore).1 < 400)%nat /\
   employees (app configured DELETE_api_employees_id deleteAnn legacyStore).2 = []) /\
  ((status (app configured DELETE_api_movies deleteFortyTwo legacyStore).1 < 400)%nat /\
   movies (app configured DELETE_api_movies deleteFortyTwo legacyStore).2 = [legacyString]).
Proof.
  split.
  - destruct (delete_outcome decimalToNumber numberText hexObjectId countingObjectId
                lineStack failureText configured
                DELETE_api_employees_id deleteAnn legacyStore EmployeeModel
                (QId (VStr "64B7F0A2C3D4E5F6012345E1")) eq_refl eq_refl)
      as [H _].
    + discriminate.
    + split; [apply H; reflexivity | reflexivity].
  - destruct (delete_outcome decimalToNumber numberText hexObjectId countingObjectId
                lineStack failureText configured
                DELETE_api_movies deleteFortyTwo legacyStore MovieModel
                (movieIdFilter decimalToNumber (VStr "42")) eq_refl eq_refl)
      as [H _].
    + intros _. split; [discriminate | reflexivity].
    + split; [apply H; reflexivity | reflexivity].
Defined.

(** The year 1995, sent as a number, is stored as a string. *)
Lemma update_outcome_example :
  exists d' : Doc,
    (app configured PUT_api_movies retitle legacyStore).1
      = {| status := 200%nat; body := JsonDoc d' |} /\
    props d' !! "movie_id" = Some (VNum 42) /\
    props d' !! "movie_title" = Some (VStr "Heat (1995)") /\
    props d' !! "Released" = Some (VStr "1995").
Proof.
  destruct (update_outcome decimalToNumber numberText hexObjectId countingObjectId
              lineStack failureText configured
              PUT_api_movies retitle legacyStore (or_introl eq_refl)) as (_ & _ & H).
  - discriminate.
  - reflexivity.
  - destruct (H legacyNumber eq_refl)
      as (pre & post & d' & _ & _ & _ & _ & Hr & _ & Hk & Ht & Hrel).
    exists d'. split; [exact Hr|]. split; [|split].
    + rewrite Hk by discriminate. reflexivity.
    + apply Ht. discriminate.
    + apply Hrel. discriminate.
Defined.

Lemma missing_target_rejected_example :
  app configured POST_ui_movie_delete (request "POST" "/ui/movie/delete" ∅ ∅ ∅) legacyStore =
  ({| status := 400%nat;
      body := JsonObject (errorBody configured (missingTarget lineStack 645)) |},
   legacyStore).
Proof.
  destruct (missing_target_rejected decimalToNumber numberText hexObjectId
              countingObjectId lineStack failureText configured
              POST_ui_movie_delete (request "POST" "/ui/movie/delete" ∅ ∅ ∅) legacyStore)
    as [H _].
  - discriminate.
  - apply H; [discriminate | reflexivity].
Defined.

Lemma id_precedence_example :
  app configured GET_api_movies_find
      (request "GET" "/api/movies/find" ∅
         {["id" := VStr "64b7f0a2c3d4e5f601234502"; "movie_id" := VStr "42"]} ∅)
      legacyStore =
  app configured GET_api_movies_find
      (without ["movie_id"; "title"]
         (request "GET" "/api/movies/find" ∅
            {["id" := VStr "64b7f0a2c3d4e5f601234502"; "movie_id" := VStr "42"]} ∅))
      legacyStore.
Proof.
  apply (id_precedence decimalToNumber numberText hexObjectId countingObjectId
           lineStack failureText configured GET_api_movies_find).
  reflexivity.
Defined.

Lemma answers_carry_stored_records_example :
  In legacyNumber
     (movies (app configured GET_api_movies (request "GET" "/api/movies" ∅ ∅ ∅)
                  legacyStore).2).
Proof.
  destruct (answers_carry_stored_records decimalToNumber numberText hexObjectId
              countingObjectId lineStack failureText configured
              GET_api_movies (request "GET" "/api/movies" ∅ ∅ ∅) legacyStore legacyNumber)
    as [H|H].
  - left. reflexivity.
  - vm_compute in H. destruct H as [H|[]]. discriminate H.
  - exact H.
Defined.

(** A find by title, and a find by an identifier written in upper case. *)
Lemma find_returns_match_example :
  (app configured GET_api_movies_find
       (request "GET" "/api/movies/find?title=Ronin" ∅ {["title" := VStr "Ronin"]} ∅)
       legacyStore).1 = {| status := 200%nat; body := JsonDoc legacyString |} /\
  (app configured GET_api_movies_find
       (request "GET" "/api/movies/find?id=64B7F0A2C3D4E5F601234501" ∅
          {["id" := VStr "64B7F0A2C3D4E5F601234501"]} ∅)
       legacyStore).1 = {| status := 200%nat; body := JsonDoc legacyNumber |}.
Proof.
  split.
  - destruct (find_returns_match decimalToNumber numberText hexObjectId
                countingObjectId lineStack failureText configured
                (request "GET" "/api/movies/find?title=Ronin" ∅ {["title" := VStr "Ronin"]} ∅)
                legacyStore) as [H _].
    + discriminate.
    + reflexivity.
    + destruct (H _ eq_refl) as [_ H']. destruct (H' legacyString eq_refl) as [Hr _].
      exact Hr.
  - destruct (find_returns_match decimalToNumber numberText hexObjectId
                countingObjectId lineStack failureText configured
                (request "GET" "/api/movies/find?id=64B7F0A2C3D4E5F601234501" ∅
                   {["id" := VStr "64B7F0A2C3D4E5F601234501"]} ∅)
                legacyStore) as [H _].
    + discriminate.
    + reflexivity.
    + destruct (H _ eq_refl) as [_ H']. destruct (H' legacyNumber eq_refl) as [Hr _].
      exact Hr.
Defined.

(** In production mode a request without a target is answered in the same
    way by the REST and by the UI update. *)
Lemma ui_rest_agree_example :
  (app configured DELETE_api_movies deleteFortyTwo legacyStore).2 =
  (app configured POST_ui_movie_delete
       (request "POST" "/ui/movie/delete" ∅ ∅ {["movie_id" := VStr "42"]}) legacyStore).2 /\
  (app live PUT_api_movies (request "PUT" "/api/movies" ∅ ∅ ∅) legacyStore).1 =
  (app live POST_ui_movie_update (request "PUT" "/api/movies" ∅ ∅ ∅) legacyStore).1.
Proof.
  split.
  - destruct (ui_rest_agree decimalToNumber numberText hexObjectId countingObjectId
                lineStack failureText configured deleteFortyTwo
                (request "POST" "/ui/movie/delete" ∅ ∅ {["movie_id" := VStr "42"]})
                legacyStore) as [_ H].
    destruct (H eq_refl) as [H1 _]. exact H1.
  - destruct (ui_rest_agree decimalToNumber numberText hexObjectId countingObjectId
                lineStack failureText live (request "PUT" "/api/movies" ∅ ∅ ∅)
                (request "PUT" "/api/movies" ∅ ∅ ∅) legacyStore) as [(_ & _ & H) _].
    destruct H as [_ H].
    + vm_compute. lia.
    + apply H. reflexivity.
Defined.

Lemma create_then_find_example :
  (app configured GET_api_movies_find
       (request "GET" "/api/movies/find" ∅ {["id" := VStr "000000000000000000000003"]} ∅)
       (app configured POST_api_movies addRan legacyStore).2).1 =
  {| status := 200%nat;
     body := JsonDoc {| _id := "000000000000000000000003";
                        props := {["movie_id" := VStr "7"; "movie_title" := VStr "Ran";
                                   "Released" := VStr "1985"]} |} |}.
Proof.
  destruct (create_then_find decimalToNumber numberText hexObjectId countingObjectId
              lineStack failureText configured addRan
              (request "GET" "/api/movies/find" ∅
                 {["id" := VStr "000000000000000000000003"]} ∅) legacyStore)
    as (_ & _ & H & _).
  - discriminate.
  - reflexivity.
  - apply H.
    + reflexivity.
    + discriminate.
    + reflexivity.
    + repeat constructor; discriminate.
Defined.

Lemma delete_then_gone_example :
  status (app configured GET_api_movies_find
              (request "GET" "/api/movies/find" ∅
                 {["id" := VStr "64b7f0a2c3d4e5f601234501"]} ∅)
              (app configured DELETE_api_movies
                   (request "DELETE" "/api/movies" ∅
                      {["id" := VStr "64b7f0a2c3d4e5f601234501"]} ∅)
                   legacyStore).2).1 = 404%nat.
Proof.
  apply (delete_then_gone decimalToNumber numberText hexObjectId countingObjectId
           lineStack failureText configured).
  - discriminate.
  - repeat constructor; intros H; apply list_elem_of_In in H; simpl in H;
      intuition discriminate.
  - reflexivity.
  - reflexivity.
  - reflexivity.
Defined.



Lemma home_views_example :
  exists (views : list MovieView) (sample : option Doc),
    (app configured GET_home (request "GET" "/" ∅ ∅ ∅) legacyStore).1 =
    {| status := 200%nat; body := Render "index" (IndexLocals views false sample) |} /\
    sample = None.
Proof.
  destruct (home_views decimalToNumber numberText hexObjectId countingObjectId
              lineStack failureText configured
              (request "GET" "/" ∅ ∅ ∅) legacyStore)
    as (views & sample & Hr & _ & _ & _ & _ & Hs & _).
  - discriminate.
  - exists views, sample. split; [exact Hr|]. apply Hs. discriminate.
Defined.

Lemma normalize_extends_v1_example :
  movie_title (normalize alien) = movie_title (normalize_v1 alien) /\
  Released (normalize alien) = Released (normalize_v1 alien).
Proof.
  destruct (normalize_extends_v1 alien) as (_ & _ & Hr & Ht).
  split; [apply Ht; reflexivity | apply Hr; reflexivity].
Defined.

Lemma numeric_id_selects_numbers_example :
  matches hexObjectId (movieIdFilter decimalToNumber (VNum 42)) legacyString = false.
Proof.
  destruct (numeric_id_selects_numbers decimalToNumber hexObjectId 42 legacyString) as [_ H].
  apply (H "42"). reflexivity.
Defined.
